(** * lg-agents: state reducers, workflow graphs and crew task chains

    A shallow embedding of the orchestration logic of the repository:
    - [agents/college_finder_agent/college_agent_schema.py]: the state
      schema of the college finder and its list reducers;
    - [agents/marketing_agent/marketing_agent.py]: the marketing graph, its
      nodes and its edge list;
    - [crew_agents/vacation_house_agent.py]: the vacation-house crew;
    - [agents/agents.py]: the agent registry.

    Python lists are [list]s, [str] is [string], [Optional[T]] is [option T],
    a [dict] with string keys is a [gmap string _], [int] is [Z]. *)

From stdpp Require Import base strings list gmap pretty.
From Stdlib Require Import ZArith Lia.

Open Scope string_scope.
Open Scope Z_scope.
Open Scope list_scope.

(** ** agents/tools/searchweb.py *)

Module SearchWeb.

(** Modelled from the spec: [agents/tools/searchweb.py] is not among the
    sources.  A search result and a scraped document are kept with the
    attributes the agents read ([link], [page_content]). *)
Record SearchResult := { title : string; link : string; snippet : string }.
Record Document := { page_content : string }.

End SearchWeb.

(** ** agents/college_finder_agent/college_agent_schema.py *)

Module CollegeAgentSchema.
Import SearchWeb.

(** Modelled from the spec: [langchain_core.messages.BaseMessage] belongs
    to the framework and is not among the sources. *)
Record BaseMessage := { content : string }.

(** A Python [float].  No reducer looks into one; it is kept as its
    [repr]. *)
Definition float : Type := string.

Record College := {
  name : string;
  location : string;
  description : string;
  acceptance_rate : option string;
  tuition : option string;
  enrollment : option string;
  dorm_percentage : option string;
  sat_scores : option string;
  programs : option (list string);
  url : option string;
  has_missing_fields : bool
}.

(** The inner loop of [colleges_reducer]:
    [for i, existing_college in enumerate(result)].  [pending] is what is
    left of the enumeration and [i] the index of its head.  On the first
    equal name the slot [i] of [result] is overwritten and the loop breaks
    with [found = True]. *)
Fixpoint enumerate_result (result : list College) (new_college : College)
    (i : nat) (pending : list College) : list College * bool :=
  match pending with
  | [] => (result, false)
  | existing_college :: pending' =>
      if decide (name existing_college = name new_college)
      then (<[i := new_college]> result, true)
      else enumerate_result result new_college (S i) pending'
  end.

(** One iteration of the outer loop, [for new_college in update]. *)
Definition process_college (result : list College) (new_college : College)
    : list College :=
  let '(result', found) := enumerate_result result new_college 0%nat result in
  if negb found then result' ++ [new_college] else result'.

Definition colleges_reducer (current : list College)
    (update : option (list College)) : list College :=
  match update with
  | None => current
  | Some update => foldl process_college current update
  end.

(** [operator.add] on two lists. *)
Definition operator_add {A : Type} (a b : list A) : list A := a ++ b.

Record CollegeFinderState := {
  major : option string;
  location_preference : option string;
  max_tuition : option Z;
  min_acceptance_rate : option float;
  max_colleges : Z;
  search_query : option string;
  sat_score : option Z;
  search_results : list SearchResult;
  colleges : list College;
  recommendations : list string;
  messages : list BaseMessage;
  data_gathering_attempts : Z;
  status_updates : list string
}.

(** What a node returns: a dict holding some of the keys of the state. *)
Record CollegeFinderUpdate := {
  u_major : option (option string);
  u_location_preference : option (option string);
  u_max_tuition : option (option Z);
  u_min_acceptance_rate : option (option float);
  u_max_colleges : option Z;
  u_search_query : option (option string);
  u_sat_score : option (option Z);
  u_search_results : option (list SearchResult);
  u_colleges : option (option (list College));
  u_recommendations : option (list string);
  u_messages : option (list BaseMessage);
  u_data_gathering_attempts : option Z;
  u_status_updates : option (list string)
}.

(** A key without annotation keeps the last value written. *)
Definition last_value {A : Type} (current : A) (update : option A) : A :=
  default current update.

(** A key annotated with a reducer is merged by it when the update holds
    the key, and is left alone otherwise. *)
Definition annotated {A B : Type} (reducer : A -> B -> A) (current : A)
    (update : option B) : A :=
  match update with
  | None => current
  | Some u => reducer current u
  end.

(** The merge of an update into the state, key by key, following the
    annotations of [CollegeFinderState]. *)
Definition merge_update (s : CollegeFinderState) (u : CollegeFinderUpdate)
    : CollegeFinderState :=
  {| major := last_value (major s) (u_major u);
     location_preference :=
       last_value (location_preference s) (u_location_preference u);
     max_tuition := last_value (max_tuition s) (u_max_tuition u);
     min_acceptance_rate :=
       last_value (min_acceptance_rate s) (u_min_acceptance_rate u);
     max_colleges := last_value (max_colleges s) (u_max_colleges u);
     search_query := last_value (search_query s) (u_search_query u);
     sat_score := last_value (sat_score s) (u_sat_score u);
     search_results :=
       annotated operator_add (search_results s) (u_search_results u);
     colleges := annotated colleges_reducer (colleges s) (u_colleges u);
     recommendations :=
       annotated operator_add (recommendations s) (u_recommendations u);
     messages := annotated operator_add (messages s) (u_messages u);
     data_gathering_attempts :=
       last_value (data_gathering_attempts s) (u_data_gathering_attempts u);
     status_updates :=
       annotated operator_add (status_updates s) (u_status_updates u) |}.

(** *** The merge-by-name reading of the reducer *)

(** [replaces_first_or_appends result c result']: [c] takes the place of
    the first college of [result] that carries its name, or goes to the end
    when no college of [result] carries it. *)
Definition replaces_first_or_appends (result : list College) (c : College)
    (result' : list College) : Prop :=
  (exists (i : nat) (e : College),
      result !! i = Some e /\ name e = name c /\
      (forall (j : nat) (e' : College),
          (j < i)%nat -> result !! j = Some e' -> name e' <> name c) /\
      result' = take i result ++ c :: drop (S i) result)
  \/ ((forall e : College, e ∈ result -> name e <> name c) /\
      result' = result ++ [c]).

(** [merged current update result]: the colleges of [update] are merged
    into [current] one after the other, in order. *)
Inductive merged : list College -> list College -> list College -> Prop :=
| merged_done (current : list College) : merged current [] current
| merged_next (current mid result : list College) (c : College)
    (update : list College) :
    replaces_first_or_appends current c mid ->
    merged mid update result ->
    merged current (c :: update) result.

End CollegeAgentSchema.

(** ** Python effects: exceptions, printing, calls to the outside *)

Module Py.

(** A raised exception: the name of its class, whether that class derives
    from [Exception] (what an [except Exception] clause catches;
    [KeyboardInterrupt], [SystemExit] and [asyncio.CancelledError] derive
    from [BaseException] only), and [str(e)]. *)
Record exn := {
  exn_class : string;
  derives_Exception : bool;
  exn_str : string
}.

Inductive outcome (A : Type) : Type :=
| Return (a : A)
| Raise (e : exn).
Arguments Return {A} a.
Arguments Raise {A} e.

Definition KeyError (key : string) : exn :=
  {| exn_class := "KeyError"; derives_Exception := true;
     exn_str := "'" +:+ key +:+ "'" |}.

Definition ValueError (msg : string) : exn :=
  {| exn_class := "ValueError"; derives_Exception := true; exn_str := msg |}.

(** [d[key]] on a dict. *)
Definition getitem {V : Type} (d : gmap string V) (key : string) : outcome V :=
  match d !! key with
  | Some v => Return v
  | None => Raise (KeyError key)
  end.

(** [l[:stop]] on a list: a negative [stop] counts from the end. *)
Definition slice_to {A : Type} (l : list A) (stop : Z) : list A :=
  if stop <? 0
  then take (Z.to_nat (Z.max 0 (Z.of_nat (length l) + stop))) l
  else take (Z.to_nat stop) l.

Section Effects.
Context {W : Type} {E : Type -> Type}.

(** How the outside (the hosted model, the web, the crew runtime) answers a
    call [ev : E R]: it returns or raises, and moves to a new state.
    Nothing is assumed of it. *)
Class Outside := answer : forall R : Type, E R -> W -> outcome R * W.
Context `{!Outside}.

(** The state a computation runs in: the outside, the lines printed so far
    and the calls made to the outside so far. *)
Record world := {
  outside : W;
  stdout : list string;
  history : list {R : Type & E R}
}.

Definition M (A : Type) : Type := world -> outcome A * world.

Definition ret {A : Type} (a : A) : M A := fun w => (Return a, w).

Definition bind {A B : Type} (m : M A) (k : A -> M B) : M B :=
  fun w =>
    match m w with
    | (Return a, w') => k a w'
    | (Raise e, w') => (Raise e, w')
    end.

Definition lift {A : Type} (o : outcome A) : M A := fun w => (o, w).

(** [raise e], and the bare [raise] of a handler that caught [e]. *)
Definition raise {A : Type} (e : exn) : M A := fun w => (Raise e, w).

(** [print(line)]. *)
Definition print (line : string) : M unit :=
  fun w =>
    (Return tt,
     {| outside := outside w; stdout := stdout w ++ [line];
        history := history w |}).

(** A call to the outside, as the history keeps it, and its execution. *)
Definition called {R : Type} (ev : E R) : {R : Type & E R} := existT R ev.

Definition perform {R : Type} (ev : E R) : M R :=
  fun w =>
    let '(r, o) := answer R ev (outside w) in
    (r, {| outside := o; stdout := stdout w;
           history := history w ++ [called ev] |}).

(** [try: body / except Exception as e: handler(e)].  What the body did
    before it raised stays done; an exception whose class does not derive
    from [Exception] is not caught. *)
Definition try_except_Exception {A : Type} (body : M A) (handler : exn -> M A)
    : M A :=
  fun w =>
    match body w with
    | (Return a, w') => (Return a, w')
    | (Raise e, w') =>
        if derives_Exception e then handler e w' else (Raise e, w')
    end.


End Effects.
Arguments Outside W E : clear implicits.
Arguments world W E : clear implicits.
Arguments M W E A : clear implicits.

Module Notations.
Notation "x <- m ;; k" := (bind m (fun x => k))
  (at level 100, m at next level, right associativity).
Notation "m ;;; k" := (bind m (fun _ => k))
  (at level 100, right associativity).
End Notations.

End Py.

(** ** The graph builder of the framework *)

Module LangGraph.
Import Py.

Section Graph.
Context {State Action : Type}.

(** Modelled from the spec: [langgraph.graph.StateGraph] belongs to the
    framework and is not among the sources.  It is kept as the agents use
    it: nodes are added under a name, edges are declared between names, and
    the compiled graph runs in steps, a node running in a step when a node
    that ran in the step before has an edge to it.  The framework also
    offers edges whose target is computed from the state
    ([add_conditional_edges]); they are kept as [branches], so that a graph
    without them can be told from one with them. *)
Record StateGraph := {
  nodes : list (string * Action);
  edges : list (string * string);
  branches : list (string * (State -> list string));
  entry_point : option string
}.

Definition new_graph : StateGraph :=
  {| nodes := []; edges := []; branches := []; entry_point := None |}.

Definition node_names (g : StateGraph) : list string := (nodes g).*1.

Definition add_node (key : string) (action : Action) (g : StateGraph)
    : outcome StateGraph :=
  if decide (key ∈ node_names g)
  then Raise (ValueError ("Node `" +:+ key +:+ "` already present."))
  else Return {| nodes := nodes g ++ [(key, action)]; edges := edges g;
                 branches := branches g; entry_point := entry_point g |}.

Definition add_edge (start_key end_key : string) (g : StateGraph)
    : outcome StateGraph :=
  Return {| nodes := nodes g; edges := edges g ++ [(start_key, end_key)];
            branches := branches g; entry_point := entry_point g |}.

Definition add_conditional_edges (source : string)
    (path : State -> list string) (g : StateGraph) : outcome StateGraph :=
  Return {| nodes := nodes g; edges := edges g;
            branches := branches g ++ [(source, path)];
            entry_point := entry_point g |}.

Definition set_entry_point (key : string) (g : StateGraph)
    : outcome StateGraph :=
  Return {| nodes := nodes g; edges := edges g; branches := branches g;
            entry_point := Some key |}.

(** [compile] refuses a graph with an edge from or to a name that is not a
    node, or without an entry point that is a node. *)
Definition compile (g : StateGraph) : outcome StateGraph :=
  if decide (Forall (fun e => e.1 ∈ node_names g /\ e.2 ∈ node_names g)
               (edges g))
  then match entry_point g with
       | Some key =>
           if decide (key ∈ node_names g) then Return g
           else Raise (ValueError "Entry point is not a node")
       | None => Raise (ValueError "Graph must have an entrypoint")
       end
  else Raise (ValueError "Found edge at unknown node").

(** The calls made on a builder, one after the other; the first that raises
    ends the construction. *)
Definition build (calls : list (StateGraph -> outcome StateGraph))
    : outcome StateGraph :=
  foldl (fun acc f => match acc with Return g => f g | Raise e => Raise e end)
        (Return new_graph) calls.

(** [triggered g state ran n]: a node of [ran] has an edge to [n], declared
    or computed from [state]. *)
Definition triggered (g : StateGraph) (state : State) (ran : list string)
    (n : string) : bool :=
  existsb
    (fun m =>
       bool_decide ((m, n) ∈ edges g) ||
       existsb (fun b => bool_decide (b.1 = m) && bool_decide (n ∈ b.2 state))
               (branches g))
    ran.

Definition next_nodes (g : StateGraph) (state : State) (ran : list string)
    : list string :=
  List.filter (triggered g state ran) (node_names g).

(** The nodes run step by step, from the step [ran] on.  [states k] is the
    state the graph holds after step [k]; it is whatever the nodes made
    it. *)
Fixpoint schedule (g : StateGraph) (states : nat -> State) (k : nat)
    (fuel : nat) (ran : list string) : list (list string) :=
  match fuel, ran with
  | O, _ => []
  | _, [] => []
  | S fuel', _ =>
      ran :: schedule g states (S k) fuel' (next_nodes g (states k) ran)
  end.

Definition run_order (g : StateGraph) (states : nat -> State) (fuel : nat)
    : list (list string) :=
  match entry_point g with
  | Some key => schedule g states 0%nat fuel [key]
  | None => []
  end.

End Graph.
Arguments StateGraph State Action : clear implicits.

End LangGraph.

(** ** agents/marketing_agent/marketing_schema.py *)

Module MarketingSchema.
Import SearchWeb.

(** Modelled from the spec: [marketing_schema.py] is not among the sources.
    A persona and a competitor carry what the prompts ask the model for;
    the state carries the keys the nodes of the marketing graph read and
    write, [max_personas] being an [int] as in [run_marketing_analysis]. *)
Record Persona := { persona_name : string; persona_description : string }.

Record Competitor := {
  competitor_name : string;
  competitor_description : string;
  competitor_url : string
}.

Record MarketingPlanState := {
  appUrl : string;
  appName : string;
  appDescription : string;
  keyfeatures : list string;
  value_proposition : string;
  max_personas : Z;
  competitor_hint : option string;
  personas : list Persona;
  keywords : list string;
  search_results : list SearchResult;
  competitors : list Competitor;
  marketing_suggestions : list string;
  subreddits : list string;
  human_feedback : string
}.

(** One [key: value] pair of the dict a node returns. *)
Inductive Item : Type :=
| item_personas (v : list Persona)
| item_search_results (v : list SearchResult)
| item_appDescription (v : string)
| item_keyfeatures (v : list string)
| item_value_proposition (v : string)
| item_appName (v : string)
| item_keywords (v : list string)
| item_human_feedback (v : string)
| item_competitors (v : list Competitor)
| item_marketing_suggestions (v : list string)
| item_subreddits (v : list string).

End MarketingSchema.

(** ** agents/marketing_agent/marketing_agent.py *)

Module MarketingAgent.
Import SearchWeb MarketingSchema Py Py.Notations.

Record PersonaList := { PersonaList_personas : list Persona }.
Record CompetitorList := { CompetitorList_competitors : list Competitor }.
Record SiteInfo := {
  SiteInfo_appName : string;
  SiteInfo_description : string;
  SiteInfo_keyfeatures : list string;
  SiteInfo_value_proposition : string
}.
Record MarketingStrategiesList := { strategies : list string }.
Record KeywordList := { KeywordList_keywords : list string }.
Record SubredditList := { SubredditList_subreddits : list string }.

(** The [BaseModel] classes of the module, as values that can be passed to
    [with_structured_output], and the type of the instances of each. *)
Inductive BaseModelClass : Type :=
| cls_PersonaList
| cls_CompetitorList
| cls_SiteInfo
| cls_MarketingStrategiesList
| cls_KeywordList
| cls_SubredditList.

Definition instance (cls : BaseModelClass) : Type :=
  match cls with
  | cls_PersonaList => PersonaList
  | cls_CompetitorList => CompetitorList
  | cls_SiteInfo => SiteInfo
  | cls_MarketingStrategiesList => MarketingStrategiesList
  | cls_KeywordList => KeywordList
  | cls_SubredditList => SubredditList
  end.

(** The prompts are f-strings over keys of the state.  A prompt is kept as
    the template it comes from together with the values put into it. *)
Inductive Prompt : Type :=
| prompt_create_personas (max_personas : Z) (appName appDescription : string)
    (keyfeatures : list string) (value_proposition : string)
| prompt_extract_keywords (appName value_proposition : string)
    (personas : list Persona)
| prompt_extract_competitors (page_content : string)
| prompt_select_competitors (appName appDescription : string)
    (results : list Competitor)
| prompt_marketing_suggestions (appName appDescription : string)
    (keyfeatures : list string) (value_proposition : string)
    (competitors : list Competitor)
| prompt_subreddits (appName appDescription : string)
    (keyfeatures : list string) (value_proposition : string)
    (competitors : list Competitor).

(** The chat model [get_llm()] returns, and what can be invoked: the model
    itself, which answers with a message, or the model wrapped by
    [with_structured_output], which answers with an instance of the
    requested class. *)
Record Llm := { model : string }.
Record AIMessage := { message_content : string }.

Inductive Runnable : Type :=
| plain (llm : Llm)
| with_structured_output (llm : Llm) (schema : BaseModelClass).

Definition response (r : Runnable) : Type :=
  match r with
  | plain _ => AIMessage
  | with_structured_output _ schema => instance schema
  end.

(** The calls the module makes to the outside. *)
Inductive event : Type -> Type :=
| get_llm : event Llm
| invoke (r : Runnable) (prompt : Prompt) : event (response r)
| search_web (query : string) : event (list SearchResult)
| search_web_with_query (query : string) : event (list SearchResult)
| scrape_web (url : string) : event Document
| scrape_web_agent (url prompt : string) (schema : BaseModelClass)
    : event (string + instance schema)
| use_browser (task : string) (schema : BaseModelClass) (max_steps : Z)
    : event (option string)
| model_dump_json (schema : BaseModelClass) (obj : instance schema)
    : event string
| model_validate_json (schema : BaseModelClass) (json : string)
    : event (instance schema).


Section Nodes.
Context {W : Type} `{!Outside W event}.

Local Abbreviation M := (Py.M W event).

(** [int(x)] on a value that is an [int] already. *)
Definition int (x : Z) : Z := x.

(** Truth value of an optional string: [None] and the empty string are
    false. *)
Definition truthy (s : option string) : bool :=
  match s with
  | None | Some "" => false
  | Some _ => true
  end.

Definition create_personas (state : MarketingPlanState) : M (list Item) :=
  let prompt :=
    prompt_create_personas (max_personas state) (appName state)
      (appDescription state) (keyfeatures state) (value_proposition state) in
  llm <- perform get_llm ;;
  let structured_llm := with_structured_output llm cls_PersonaList in
  response <- perform (invoke structured_llm prompt) ;;
  let max_personas := int (max_personas state) in
  ret [item_personas (slice_to (PersonaList_personas response) max_personas)].

Definition search_web_for_competitors (state : MarketingPlanState)
    : M (list Item) :=
  results <- perform (search_web
                        ("Find website with a similar value proposition: "
                         +:+ value_proposition state)) ;;
  ret [item_search_results results].

Definition search_web_for_competitors_by_hint (state : MarketingPlanState)
    : M (list Item) :=
  if truthy (competitor_hint state)
  then
    results <- perform (search_web_with_query
                          ("Find website similar to "
                           +:+ default "" (competitor_hint state))) ;;
    ret [item_search_results results]
  else ret [].

Definition analyze_site (state : MarketingPlanState) : M (list Item) :=
  let url := appUrl state in
  print ("ANALYZING SITE " +:+ url) ;;;
  final_result <- perform (scrape_web_agent url
"- App name
- Description
- Key features (as a list)
- Value proposition
" cls_SiteInfo) ;;
  final_result <- match final_result with
                  | inl json => ret json
                  | inr obj => perform (model_dump_json cls_SiteInfo obj)
                  end ;;
  parsed <- perform (model_validate_json cls_SiteInfo final_result) ;;
  ret [item_appDescription (SiteInfo_description parsed);
       item_keyfeatures (SiteInfo_keyfeatures parsed);
       item_value_proposition (SiteInfo_value_proposition parsed);
       item_appName (SiteInfo_appName parsed)].

Definition extract_keywords (state : MarketingPlanState) : M (list Item) :=
  let prompt :=
    prompt_extract_keywords (appName state) (value_proposition state)
      (personas state) in
  llm <- perform get_llm ;;
  let structured_llm := with_structured_output llm cls_KeywordList in
  response <- perform (invoke structured_llm prompt) ;;
  ret [item_keywords (KeywordList_keywords response)].

Definition get_feedback (state : MarketingPlanState) : M (list Item) :=
  ret [item_human_feedback "Feedback received"].

Definition end_ (state : MarketingPlanState) : M (list Item) := ret [].

(** The body of the [try] of [finalize_competitors] for one search result:
    the page is fetched, the model is asked for the competitors it names,
    and they are added to [results]. *)
Definition extract_from_link (llm : Llm) (search_result : SearchResult)
    (results : list Competitor) : M (list Competitor) :=
  doc <- perform (scrape_web (link search_result)) ;;
  let prompt := prompt_extract_competitors (page_content doc) in
  let structured_llm := with_structured_output llm cls_CompetitorList in
  competitors <- perform (invoke structured_llm prompt) ;;
  ret (results ++ CompetitorList_competitors competitors).

(** The [except Exception as e] clause: a line is printed and the loop
    goes on with [results] as they were. *)
Definition report_link_error (search_result : SearchResult)
    (results : list Competitor) (e : exn) : M (list Competitor) :=
  print ("Error processing " +:+ link search_result +:+ ": " +:+ exn_str e) ;;;
  ret results.

(** [for search_result in state["search_results"]], from the search
    results still [pending] and the [results] gathered so far. *)
Fixpoint for_search_results (llm : Llm) (pending : list SearchResult)
    (results : list Competitor) : M (list Competitor) :=
  match pending with
  | [] => ret results
  | search_result :: pending' =>
      results' <- try_except_Exception
                    (extract_from_link llm search_result results)
                    (report_link_error search_result results) ;;
      for_search_results llm pending' results'
  end.

Definition finalize_competitors (state : MarketingPlanState) : M (list Item) :=
  llm <- perform get_llm ;;
  results <- for_search_results llm (search_results state) [] ;;
  let prompt2 :=
    prompt_select_competitors (appName state) (appDescription state) results in
  let structured_llm := with_structured_output llm cls_CompetitorList in
  response <- perform (invoke structured_llm prompt2) ;;
  ret [item_competitors (CompetitorList_competitors response)].

Definition get_marketing_suggestions (state : MarketingPlanState)
    : M (list Item) :=
  let prompt :=
    prompt_marketing_suggestions (appName state) (appDescription state)
      (keyfeatures state) (value_proposition state) (competitors state) in
  llm <- perform get_llm ;;
  let structured_llm := with_structured_output llm cls_MarketingStrategiesList in
  response <- perform (invoke structured_llm prompt) ;;
  ret [item_marketing_suggestions (strategies response)].

Definition get_subreddits (state : MarketingPlanState) : M (list Item) :=
  let prompt :=
    prompt_subreddits (appName state) (appDescription state)
      (keyfeatures state) (value_proposition state) (competitors state) in
  llm <- perform get_llm ;;
  let structured_llm := with_structured_output llm cls_SubredditList in
  response <- perform (invoke structured_llm prompt) ;;
  ret [item_subreddits (SubredditList_subreddits response)].


Definition Node : Type := MarketingPlanState -> M (list Item).

Definition create_marketing_graph
    : outcome (LangGraph.StateGraph MarketingPlanState Node) :=
  LangGraph.build [
    LangGraph.add_node "analyze_site" analyze_site;
    LangGraph.add_node "create_personas" create_personas;
    LangGraph.add_node "extract_keywords" extract_keywords;
    LangGraph.add_node "search_web_for_competitors_by_hint"
      search_web_for_competitors_by_hint;
    LangGraph.add_node "finalize_competitors" finalize_competitors;
    LangGraph.add_node "get_marketing_suggestions" get_marketing_suggestions;
    LangGraph.add_node "get_subreddits" get_subreddits;
    LangGraph.add_node "__END__" end_;
    LangGraph.add_edge "analyze_site" "create_personas";
    LangGraph.add_edge "create_personas" "extract_keywords";
    LangGraph.add_edge "extract_keywords" "search_web_for_competitors_by_hint";
    LangGraph.add_edge "search_web_for_competitors_by_hint"
      "finalize_competitors";
    LangGraph.add_edge "finalize_competitors" "get_marketing_suggestions";
    LangGraph.add_edge "finalize_competitors" "get_subreddits";
    LangGraph.add_edge "get_subreddits" "__END__";
    LangGraph.add_edge "get_marketing_suggestions" "__END__";
    LangGraph.set_entry_point "analyze_site";
    LangGraph.compile
  ].

End Nodes.

End MarketingAgent.

(** ** Running a compiled graph *)

Module Pregel.
Import Py LangGraph.

Section Run.
Context {W : Type} {E : Type -> Type} `{!Outside W E}.
Context {State Update : Type}.

Local Abbreviation Graph := (StateGraph State (State -> M W E Update)).

(** Modelled from the spec: the runner of the framework is not among the
    sources.  A run goes by steps.  The nodes of a step are run one after
    the other on the state the step started from; their updates are then
    merged into the state and the nodes they have an edge to make the next
    step.  A node that raises ends the run.  [fuel] bounds the number of
    steps. *)
Fixpoint action (nodes : list (string * (State -> M W E Update)))
    (n : string) : option (State -> M W E Update) :=
  match nodes with
  | [] => None
  | (key, act) :: nodes' =>
      if decide (key = n) then Some act else action nodes' n
  end.

Record Run := {
  visited : list (list string);
  result : outcome State;
  final : world W E
}.

(** The nodes named by [names], from the state [state]: the names of the
    nodes started, the updates of those that returned or what the first
    to fail raised, and the world they leave. *)
Fixpoint run_nodes (g : Graph) (names : list string) (state : State)
    (w : world W E) : list string * outcome (list Update) * world W E :=
  match names with
  | [] => ([], Return [], w)
  | n :: names' =>
      match action (nodes g) n with
      | None => ([n], Raise (ValueError ("unknown node " +:+ n)), w)
      | Some act =>
          match act state w with
          | (Raise e, w') => ([n], Raise e, w')
          | (Return update, w') =>
              let '(started, r, w'') := run_nodes g names' state w' in
              (n :: started,
               match r with
               | Return updates => Return (update :: updates)
               | Raise e => Raise e
               end,
               w'')
          end
      end
  end.

Fixpoint execute (merge : State -> Update -> State) (g : Graph) (fuel : nat)
    (ran : list string) (state : State) (w : world W E) : Run :=
  match fuel, ran with
  | O, _ => {| visited := []; result := Return state; final := w |}
  | _, [] => {| visited := []; result := Return state; final := w |}
  | S fuel', _ =>
      match run_nodes g ran state w with
      | (started, Raise e, w') =>
          {| visited := [started]; result := Raise e; final := w' |}
      | (started, Return updates, w') =>
          let state' := foldl merge state updates in
          let rest :=
            execute merge g fuel' (next_nodes g state' ran) state' w' in
          {| visited := started :: visited rest; result := result rest;
             final := final rest |}
      end
  end.

Definition run_graph (merge : State -> Update -> State) (g : Graph)
    (fuel : nat) (state : State) (w : world W E) : Run :=
  match entry_point g with
  | Some key => execute merge g fuel [key] state w
  | None =>
      {| visited := [];
         result := Raise (ValueError "Graph must have an entrypoint");
         final := w |}
  end.


End Run.
Arguments Run W E State : clear implicits.

End Pregel.

(** ** Writing the dict of a node into the marketing state *)

Module MarketingRun.
Import SearchWeb MarketingSchema.

(** Modelled from the spec: how the keys of [MarketingPlanState] are merged
    is declared in [marketing_schema.py], which is not among the sources.
    Each key is taken to keep the last value written under it. *)
Definition write_item (s : MarketingPlanState) (item : Item)
    : MarketingPlanState :=
  match item with
  | item_personas v =>
      {| appUrl := appUrl s; appName := appName s;
         appDescription := appDescription s; keyfeatures := keyfeatures s;
         value_proposition := value_proposition s;
         max_personas := max_personas s;
         competitor_hint := competitor_hint s; personas := v;
         keywords := keywords s; search_results := search_results s;
         competitors := competitors s;
         marketing_suggestions := marketing_suggestions s;
         subreddits := subreddits s; human_feedback := human_feedback s |}
  | item_search_results v =>
      {| appUrl := appUrl s; appName := appName s;
         appDescription := appDescription s; keyfeatures := keyfeatures s;
         value_proposition := value_proposition s;
         max_personas := max_personas s;
         competitor_hint := competitor_hint s; personas := personas s;
         keywords := keywords s; search_results := v;
         competitors := competitors s;
         marketing_suggestions := marketing_suggestions s;
         subreddits := subreddits s; human_feedback := human_feedback s |}
  | item_appDescription v =>
      {| appUrl := appUrl s; appName := appName s; appDescription := v;
         keyfeatures := keyfeatures s;
         value_proposition := value_proposition s;
         max_personas := max_personas s;
         competitor_hint := competitor_hint s; personas := personas s;
         keywords := keywords s; search_results := search_results s;
         competitors := competitors s;
         marketing_suggestions := marketing_suggestions s;
         subreddits := subreddits s; human_feedback := human_feedback s |}
  | item_keyfeatures v =>
      {| appUrl := appUrl s; appName := appName s;
         appDescription := appDescription s; keyfeatures := v;
         value_proposition := value_proposition s;
         max_personas := max_personas s;
         competitor_hint := competitor_hint s; personas := personas s;
         keywords := keywords s; search_results := search_results s;
         competitors := competitors s;
         marketing_suggestions := marketing_suggestions s;
         subreddits := subreddits s; human_feedback := human_feedback s |}
  | item_value_proposition v =>
      {| appUrl := appUrl s; appName := appName s;
         appDescription := appDescription s; keyfeatures := keyfeatures s;
         value_proposition := v; max_personas := max_personas s;
         competitor_hint := competitor_hint s; personas := personas s;
         keywords := keywords s; search_results := search_results s;
         competitors := competitors s;
         marketing_suggestions := marketing_suggestions s;
         subreddits := subreddits s; human_feedback := human_feedback s |}
  | item_appName v =>
      {| appUrl := appUrl s; appName := v;
         appDescription := appDescription s; keyfeatures := keyfeatures s;
         value_proposition := value_proposition s;
         max_personas := max_personas s;
         competitor_hint := competitor_hint s; personas := personas s;
         keywords := keywords s; search_results := search_results s;
         competitors := competitors s;
         marketing_suggestions := marketing_suggestions s;
         subreddits := subreddits s; human_feedback := human_feedback s |}
  | item_keywords v =>
      {| appUrl := appUrl s; appName := appName s;
         appDescription := appDescription s; keyfeatures := keyfeatures s;
         value_proposition := value_proposition s;
         max_personas := max_personas s;
         competitor_hint := competitor_hint s; personas := personas s;
         keywords := v; search_results := search_results s;
         competitors := competitors s;
         marketing_suggestions := marketing_suggestions s;
         subreddits := subreddits s; human_feedback := human_feedback s |}
  | item_human_feedback v =>
      {| appUrl := appUrl s; appName := appName s;
         appDescription := appDescription s; keyfeatures := keyfeatures s;
         value_proposition := value_proposition s;
         max_personas := max_personas s;
         competitor_hint := competitor_hint s; personas := personas s;
         keywords := keywords s; search_results := search_results s;
         competitors := competitors s;
         marketing_suggestions := marketing_suggestions s;
         subreddits := subreddits s; human_feedback := v |}
  | item_competitors v =>
      {| appUrl := appUrl s; appName := appName s;
         appDescription := appDescription s; keyfeatures := keyfeatures s;
         value_proposition := value_proposition s;
         max_personas := max_personas s;
         competitor_hint := competitor_hint s; personas := personas s;
         keywords := keywords s; search_results := search_results s;
         competitors := v;
         marketing_suggestions := marketing_suggestions s;
         subreddits := subreddits s; human_feedback := human_feedback s |}
  | item_marketing_suggestions v =>
      {| appUrl := appUrl s; appName := appName s;
         appDescription := appDescription s; keyfeatures := keyfeatures s;
         value_proposition := value_proposition s;
         max_personas := max_personas s;
         competitor_hint := competitor_hint s; personas := personas s;
         keywords := keywords s; search_results := search_results s;
         competitors := competitors s; marketing_suggestions := v;
         subreddits := subreddits s; human_feedback := human_feedback s |}
  | item_subreddits v =>
      {| appUrl := appUrl s; appName := appName s;
         appDescription := appDescription s; keyfeatures := keyfeatures s;
         value_proposition := value_proposition s;
         max_personas := max_personas s;
         competitor_hint := competitor_hint s; personas := personas s;
         keywords := keywords s; search_results := search_results s;
         competitors := competitors s;
         marketing_suggestions := marketing_suggestions s;
         subreddits := v; human_feedback := human_feedback s |}
  end.

Definition write (s : MarketingPlanState) (items : list Item)
    : MarketingPlanState :=
  foldl write_item s items.

End MarketingRun.

(** ** crew_agents/vacation_house_agent.py *)

Module VacationHouseAgent.
Import Py Py.Notations.

(** Modelled from the spec: [crew_agents/schemas.py], [crew_agents/tools]
    and the crew framework ([Agent], [Task], [Crew], [Process]) are not
    among the sources.  Their classes are kept by name, and the framework's
    records with the arguments this module passes. *)
Inductive Schema : Type := CityInfo | VacationHomes | CandidateCities | HomeMatches.
Inductive JsonSchema : Type := model_json_schema (cls : Schema).
Inductive Tool : Type :=
| WebSearchTool
| ScrapeWebTool
| HomeFinderTool
| DistanceCalculatorTool.
Record Llm := { model : string }.
Inductive Callback : Type := append_event_callback.
Inductive Process : Type := sequential | hierarchical.

Module Agent.
Record t := {
  role : string;
  goal : string;
  backstory : string;
  llm : Llm;
  tools : list Tool;
  verbose : bool;
  allow_delegation : bool
}.
End Agent.

Module Task.
#[warnings="-register-all"]
Inductive t : Type := Task {
  description : string;
  expected_output : string;
  output_json_schema : option JsonSchema;
  context : option (list t);
  agent : Agent.t;
  callback : option Callback;
  tools : option (list Tool)
}.
End Task.

Record Crew := {
  agents : list Agent.t;
  tasks : list Task.t;
  verbose : bool;
  process : Process
}.

Record CrewOutput := { raw : string }.

Definition CITY_LIMIT : Z := 1.
Definition HOME_LIMIT : Z := 2.

(** The attributes [__init__] sets. *)
Record VacationHouseAgent := {
  llm : Llm;
  web_search_tool : Tool;
  scrape_web_tool : Tool;
  home_finder_tool : Tool;
  distance_tool : Tool
}.

Definition city_researcher (self : VacationHouseAgent) : Agent.t :=
  {| Agent.role := "City Researcher";
     Agent.goal := ("
                You are hired to find the towns that best match the user's criteria for vacation houses.
                Given the request from the user find the best potential cities or towns that meet the user's criteria.
                You are not looking for a specific house, but a town that has the best match for the user's criteria.
                Focus on the location and price restrictions.
                For each city research if there are short term rental restrictions and describe them briefly.
                ");
     Agent.backstory := "As a City Researcher, you are responsible for aggregating all the researched information
                into a list.";
     Agent.llm := llm self;
     Agent.tools := [web_search_tool self; scrape_web_tool self];
     Agent.verbose := true;
     Agent.allow_delegation := false |}.

Definition real_estate_agent (self : VacationHouseAgent) : Agent.t :=
  {| Agent.role := "Real Estate Agent";
     Agent.goal := ("
                Find the best vacation homes for the user based on their input.
                Look for single family homes within budget and with the most rooms and bathrooms.
                ");
     Agent.backstory := "As a Real Estate Agent, you are responsible for finding the best vacation homes for the user.
                You will use the web tools to find the best homes for the user.";
     Agent.llm := llm self;
     Agent.tools := [web_search_tool self; scrape_web_tool self];
     Agent.verbose := true;
     Agent.allow_delegation := false |}.

Definition local_expert (self : VacationHouseAgent) : Agent.t :=
  {| Agent.role := "Local Expert Agent";
     Agent.goal := ("
               Find the best local businesses for the user based on the location of the home they are interested in.
               Focus on bars and restaurants and coffee shops.
               Also try to summarize how walkable the area is.
                ");
     Agent.backstory := "You are local expert trying to advice a potential buyer as to how the neighborhood is.";
     Agent.llm := llm self;
     Agent.tools := [web_search_tool self; scrape_web_tool self];
     Agent.verbose := true;
     Agent.allow_delegation := false |}.

Definition create_agents (self : VacationHouseAgent) : list Agent.t :=
  [city_researcher self; real_estate_agent self; local_expert self].

Definition find_candidate_cities_task (self : VacationHouseAgent)
    (agent : Agent.t) (query : string) : Task.t :=
  {| Task.description := ("
                Compile a list of cities that match the user's query for vacation houses: " +:+ query +:+ "
                Try to use multiple sources to find the cities that match.
                For each city research if there are short term rental restrictions and describe them briefly.
                Double check that the criteria in the query is met and the best fit cities are returned.
                Use both your knowledge and the web search tool to find and verify cities.
                Return at most " +:+ pretty CITY_LIMIT +:+ " cities.
                ");
     Task.expected_output := "
                A JSON array of cities that match the user's query for vacation houses.
                For each city include:
                - Name and location
                - Why it matches the criteria
                - Approximate price ranges for vacation homes
                - Short term rental restrictions (if any)
                ";
     Task.output_json_schema := Some (model_json_schema CandidateCities);
     Task.context := None;
     Task.agent := agent;
     Task.callback := Some append_event_callback;
     Task.tools := Some [web_search_tool self; scrape_web_tool self] |}.

Definition find_vacation_homes_task (self : VacationHouseAgent)
    (agent : Agent.t) (query : string) (task : Task.t) : Task.t :=
  {| Task.description := ("
                Use the web to find a few example vacation homes (not condos) in the cities mentioned in the context that match the user's query: " +:+ query +:+ "
                Perform each city search separately and only once.  Return " +:+ pretty HOME_LIMIT +:+ " results per city.
                When searching use filters to narrow down the results.
                If you cannot return results for a given city, return an empty list.
                If a price is given try to find houses near that price, not exactly that price (but also not too far away).
                Avoid zillow.com links.
                ");
     Task.expected_output := "
                A JSON array of homes that match the user's query.
                For each home include:
                - Name and location
                - Why it matches the criteria
                - Price
                - Link to the home
                ";
     Task.output_json_schema := Some (model_json_schema HomeMatches);
     Task.context := Some [task];
     Task.agent := agent;
     Task.callback := Some append_event_callback;
     Task.tools := Some [web_search_tool self; scrape_web_tool self] |}.

Definition verify_listings (self : VacationHouseAgent) (agent : Agent.t)
    (homes_task : Task.t) : Task.t :=
  {| Task.description := ("
                Verify the listings found in the homes_task are within the user's budget and have correct links.
                Verify links by opening the page and verifying the link is to the same address.  If it is not search for the address and try to find the correct link.
                The link should be to a for sale page for the property.
                ");
     Task.expected_output := "
                A JSON array of homes that match the user's query and have correct links.
                ";
     Task.output_json_schema := Some (model_json_schema HomeMatches);
     Task.context := Some [homes_task];
     Task.agent := agent;
     Task.callback := Some append_event_callback;
     Task.tools := Some [web_search_tool self; scrape_web_tool self] |}.

Definition find_local_businesses_task (self : VacationHouseAgent)
    (agent : Agent.t) (listings_task : Task.t) : Task.t :=
  {| Task.description := ("
                Find the best local businesses for the user based on the location of the homes they are interested in.
                For each home find the best bars and restaurants and coffee shops in the shortest distance to the homes address.
                ");
     Task.expected_output := "
                Updated JSON array of home matches with the business information added.  The business information should include:
                - Name
                - Address
                - Type of business
                - Distance from home specified in miles
                ";
     Task.output_json_schema := Some (model_json_schema HomeMatches);
     Task.context := Some [listings_task];
     Task.agent := agent;
     Task.callback := Some append_event_callback;
     Task.tools :=
       Some [web_search_tool self; scrape_web_tool self; distance_tool self] |}.

Definition summarize_task (self : VacationHouseAgent) (agent : Agent.t)
    (query : string) (tasks : list Task.t) : Task.t :=
  {| Task.description := ("
                Analyze the results from the city research and home search tasks to create a summary for the user.
                Original query: " +:+ query +:+ "
                
                Focus on:
                - How well the found cities match the user's requirements
                - The range and suitability of vacation homes found
                - Any notable patterns or insights across the results
                - The local businesses found for each house
                ");
     Task.expected_output := "
                A clear, concise summary of the vacation home search results that helps the user understand:
                - Which cities were identified and why they're good matches
                - The types and prices of homes found with links to the homes
                - Any recommendations or notable observations
                - The local businesses found for each house
                ";
     Task.output_json_schema := None;
     Task.context := Some tasks;
     Task.agent := agent;
     Task.callback := Some append_event_callback;
     Task.tools := None |}.

Definition create_tasks (self : VacationHouseAgent) (query : string)
    : list Task.t :=
  let city_researcher := city_researcher self in
  let real_estate_agent := real_estate_agent self in
  let local_expert := local_expert self in
  let city_research_task :=
    find_candidate_cities_task self city_researcher query in
  let real_estate_task :=
    find_vacation_homes_task self real_estate_agent query city_research_task in
  let verify_listings_task :=
    verify_listings self real_estate_agent real_estate_task in
  let local_business_task :=
    find_local_businesses_task self local_expert verify_listings_task in
  let summarize_task :=
    summarize_task self city_researcher query
      [city_research_task; verify_listings_task; local_business_task] in
  [city_research_task; real_estate_task; verify_listings_task;
   local_business_task; summarize_task].

(** [mentions needle s]: [needle] occurs in [s]. *)
Definition mentions (needle s : string) : bool :=
  match String.index 0 needle s with
  | Some _ => true
  | None => false
  end.


(** The calls [run] makes to the outside. *)
Inductive event : Type -> Type :=
| get_llm : event Llm
| kickoff (crew : Crew) : event CrewOutput.

(** What [run] hands back: the results of the crew as they are, or a
    text. *)
Inductive RunResult : Type :=
| results_of_crew (results : CrewOutput)
| text (s : string).

Section Run.
Context {W : Type} `{!Outside W event}.

Local Abbreviation M := (Py.M W event).

Definition init : M VacationHouseAgent :=
  llm <- perform get_llm ;;
  ret {| llm := llm;
         web_search_tool := WebSearchTool;
         scrape_web_tool := ScrapeWebTool;
         home_finder_tool := HomeFinderTool;
         distance_tool := DistanceCalculatorTool |}.

Definition run (self : VacationHouseAgent) (input_data : gmap string string)
    : M RunResult :=
  query <- lift (getitem input_data "query") ;;
  let agents := create_agents self in
  let tasks := create_tasks self query in
  let crew :=
    {| agents := agents; tasks := tasks; verbose := true;
       process := sequential |} in
  try_except_Exception
    (results <- perform (kickoff crew) ;;
     print ("Crew Results:  " +:+ raw results) ;;;
     ret (results_of_crew results))
    (fun e =>
       print ("Crew Error: " +:+ exn_str e) ;;;
       ret (text ("Error running crew: " +:+ exn_str e))).

End Run.

(** The crew [run] builds for a query. *)
Definition crew_of (self : VacationHouseAgent) (query : string) : Crew :=
  {| agents := create_agents self; tasks := create_tasks self query;
     verbose := true; process := sequential |}.

End VacationHouseAgent.

(** ** agents/agents.py *)

Module Agents.
Import Py MarketingSchema.

(** Modelled from the spec: [schema.AgentInfo] is not among the sources;
    it is built from a key and a description. *)
Record AgentInfo := { key : string; AgentInfo_description : string }.

Section Registry.
Context {W : Type} `{!Outside W MarketingAgent.event}.

Definition CompiledStateGraph : Type :=
  LangGraph.StateGraph MarketingPlanState (@MarketingAgent.Node W).

Record Agent := { description : string; graph : CompiledStateGraph }.

Definition DEFAULT_AGENT : string := "marketing-agent".

(** The module-level dict.  Its one entry holds the graph built when
    [marketing_agent.py] is loaded, so it exists when that construction
    returns. *)
Definition all_agents : outcome (gmap string Agent) :=
  match MarketingAgent.create_marketing_graph with
  | Return marketing_agent =>
      Return {[ "marketing-agent" :=
                  {| description := "A marketing agent.";
                     graph := marketing_agent |} ]}
  | Raise e => Raise e
  end.

(** The two functions, over the dict they read. *)
Definition get_agent (all_agents : gmap string Agent) (agent_id : string)
    : outcome CompiledStateGraph :=
  match getitem all_agents agent_id with
  | Return agent => Return (graph agent)
  | Raise e => Raise e
  end.

Definition get_all_agent_info (all_agents : gmap string Agent)
    : list AgentInfo :=
  (fun item => {| key := item.1; AgentInfo_description := description item.2 |})
    <$> map_to_list all_agents.

End Registry.

End Agents.

(** ** run_bargpt_agent.py *)

Module RunBargptAgent.
Import Py Py.Notations.

(** A value of a [Dict[str, Any]] as this module builds it: a string or a
    list of strings. *)
Inductive Any : Type :=
| any_str (s : string)
| any_list (l : list string).

(** Modelled from the spec: the private [ResearchAgent] is not among the
    sources.  It is kept as an object that is built and then run on a
    dict, giving a dict. *)
Record ResearchAgent := { research_agent_id : string }.

(** The calls the module makes to the outside: the logger of the module,
    the construction of the agent and its run. *)
Inductive event : Type -> Type :=
| logger_info (msg : string) : event unit
| logger_error (msg : string) : event unit
| ResearchAgent_new : event ResearchAgent
| ResearchAgent_run (self : ResearchAgent) (input_data : gmap string Any)
    : event (gmap string Any).

(** The dict [run_trending_flow] passes to the agent. *)
Definition trending_request : gmap string Any :=
  <[ "request" := any_str "What are the latest trending topics?" ]>
    (<[ "recent_topics" := any_list ["old topic 1"; "old topic 2"] ]> ∅).

Section Flow.
Context {W : Type} `{!Outside W event}.

Local Abbreviation M := (Py.M W event).

(** The body of the [try]. *)
Definition trending_flow_body : M (gmap string Any) :=
  perform (logger_info "Starting BarGPT trending post flow...") ;;;
  research_agent <- perform ResearchAgent_new ;;
  result <- perform (ResearchAgent_run research_agent trending_request) ;;
  ret result.

Definition run_trending_flow : M (gmap string Any) :=
  try_except_Exception trending_flow_body
    (fun e =>
       perform (logger_error ("Error running trending flow: " +:+ exn_str e)) ;;;
       raise e).

End Flow.

End RunBargptAgent.

(** ** Readings used to state properties

    [upsert] is the merge of one college by name, by recursion on the list;
    [last_named] is the college an update ends up giving for a name;
    [scraped] is the list of the pages fetched, read off a history. *)

Module Readings.
Import CollegeAgentSchema.

Fixpoint upsert (l : list College) (c : College) : list College :=
  match l with
  | [] => [c]
  | e :: l' =>
      if decide (name e = name c) then c :: l' else e :: upsert l' c
  end.

Definition named (n : string) (c : College) : Prop := name c = n.

#[global] Instance named_dec (n : string) (c : College) : Decision (named n c).
Proof. unfold named. apply _. Defined.

Definition last_named (n : string) (update : list College) : option College :=
  last (filter (named n) update).

(** What an update ends up giving for the slot of [e]: the last of its
    colleges with the name of [e], or [e] when it has none. *)
Definition settled (update : list College) (e : College) : College :=
  default e (last_named (name e) update).

(** [first_at l c i]: the college [c] is in [l] at index [i], and no
    college before it carries its name. *)
Definition first_at (l : list College) (c : College) (i : nat) : Prop :=
  l !! i = Some c /\
  forall (j : nat) (e : College),
    (j < i)%nat -> l !! j = Some e -> name e <> name c.

Definition scraped_url (c : {R : Type & MarketingAgent.event R})
    : option string :=
  match projT2 c with
  | MarketingAgent.scrape_web url => Some url
  | _ => None
  end.

Definition scraped (h : list {R : Type & MarketingAgent.event R})
    : list string :=
  omap scraped_url h.

End Readings.

(** ** Sample outsides

    Two outsides with fixed answers, on which the agents can be run. *)

Module Samples.
Import Py SearchWeb MarketingSchema.

Definition ConnectionError : exn :=
  {| exn_class := "ConnectionError"; derives_Exception := true;
     exn_str := "connection refused" |}.

Definition CancelledError : exn :=
  {| exn_class := "asyncio.CancelledError"; derives_Exception := false;
     exn_str := "" |}.

Definition KeyboardInterrupt : exn :=
  {| exn_class := "KeyboardInterrupt"; derives_Exception := false;
     exn_str := "" |}.

Definition RateLimitError : exn :=
  {| exn_class := "RateLimitError"; derives_Exception := true;
     exn_str := "rate limit reached" |}.

(** The crew runtime: its state is the answer [kickoff] gives. *)
Definition crew_outside
    : Outside (outcome VacationHouseAgent.CrewOutput) VacationHouseAgent.event :=
  fun R ev =>
    match ev in VacationHouseAgent.event R
          return outcome VacationHouseAgent.CrewOutput ->
                 outcome R * outcome VacationHouseAgent.CrewOutput with
    | VacationHouseAgent.get_llm =>
        fun o => (Return {| VacationHouseAgent.model := "gpt-4o" |}, o)
    | VacationHouseAgent.kickoff _ => fun o => (o, o)
    end.

Definition persona (n : string) : Persona :=
  {| persona_name := n; persona_description := "a buyer" |}.

Definition competitor (n : string) : Competitor :=
  {| competitor_name := n; competitor_description := "a launch site";
     competitor_url := "https://" +:+ n |}.

(** What the hosted model answers for each requested class: three
    personas, the competitor named on the page it is shown, and so on. *)
Definition canned (schema : MarketingAgent.BaseModelClass)
    (prompt : MarketingAgent.Prompt) : MarketingAgent.instance schema :=
  match schema return MarketingAgent.instance schema with
  | MarketingAgent.cls_PersonaList =>
      {| MarketingAgent.PersonaList_personas :=
           [persona "Ada"; persona "Bo"; persona "Cy"] |}
  | MarketingAgent.cls_CompetitorList =>
      {| MarketingAgent.CompetitorList_competitors :=
           match prompt with
           | MarketingAgent.prompt_extract_competitors page => [competitor page]
           | MarketingAgent.prompt_select_competitors _ _ results => results
           | _ => []
           end |}
  | MarketingAgent.cls_SiteInfo =>
      {| MarketingAgent.SiteInfo_appName := "App";
         MarketingAgent.SiteInfo_description := "An app";
         MarketingAgent.SiteInfo_keyfeatures := ["fast"];
         MarketingAgent.SiteInfo_value_proposition := "saves time" |}
  | MarketingAgent.cls_MarketingStrategiesList =>
      {| MarketingAgent.strategies := ["write a launch post"] |}
  | MarketingAgent.cls_KeywordList =>
      {| MarketingAgent.KeywordList_keywords := ["launch"] |}
  | MarketingAgent.cls_SubredditList =>
      {| MarketingAgent.SubredditList_subreddits := ["r/startups"] |}
  end.

(** The web and the model, without state: a page listed in [faults]
    raises what is listed for it, every other page holds its own
    address. *)
Definition web_outside (faults : list (string * exn))
    : Outside unit MarketingAgent.event :=
  fun R ev =>
    match ev in MarketingAgent.event R return unit -> outcome R * unit with
    | MarketingAgent.get_llm =>
        fun o => (Return {| MarketingAgent.model := "gpt-4o" |}, o)
    | MarketingAgent.invoke r prompt =>
        match r return unit -> outcome (MarketingAgent.response r) * unit with
        | MarketingAgent.plain _ =>
            fun o => (Return {| MarketingAgent.message_content := "ok" |}, o)
        | MarketingAgent.with_structured_output _ schema =>
            fun o => (Return (canned schema prompt), o)
        end
    | MarketingAgent.search_web _ => fun o => (Return [], o)
    | MarketingAgent.search_web_with_query _ => fun o => (Return [], o)
    | MarketingAgent.scrape_web url =>
        fun o =>
          match list_to_map (M := gmap string exn) faults !! url with
          | Some e => (Raise e, o)
          | None => (Return {| page_content := url |}, o)
          end
    | MarketingAgent.scrape_web_agent _ _ schema =>
        fun o => (Return (inl "{}"), o)
    | MarketingAgent.use_browser _ _ _ => fun o => (Return None, o)
    | MarketingAgent.model_dump_json _ _ => fun o => (Return "{}", o)
    | MarketingAgent.model_validate_json schema json =>
        fun o => (Return (canned schema
                            (MarketingAgent.prompt_extract_competitors json)), o)
    end.

(** A web where one page refuses the connection, and one where, besides,
    the fetch of a page is cancelled. *)
Definition flaky_web : Outside unit MarketingAgent.event :=
  web_outside [("down.example", ConnectionError)].

Definition cancelling_web : Outside unit MarketingAgent.event :=
  web_outside [("down.example", ConnectionError);
               ("slow.example", CancelledError)].

(** A web without faults where the model refuses the last request of
    [finalize_competitors], the choice among the competitors found. *)
Definition ranking_fails_web : Outside unit MarketingAgent.event :=
  fun R ev =>
    match ev in MarketingAgent.event R return unit -> outcome R * unit with
    | MarketingAgent.invoke
        (MarketingAgent.with_structured_output _
           MarketingAgent.cls_CompetitorList)
        (MarketingAgent.prompt_select_competitors _ _ _) =>
        fun o => (Raise RateLimitError, o)
    | ev' => web_outside [] _ ev'
    end.

(** The research agent: its state is the answer its run gives; the logger
    always returns. *)
Definition research_outside
    : Outside (outcome (gmap string RunBargptAgent.Any)) RunBargptAgent.event :=
  fun R ev =>
    match ev in RunBargptAgent.event R
          return outcome (gmap string RunBargptAgent.Any) ->
                 outcome R * outcome (gmap string RunBargptAgent.Any) with
    | RunBargptAgent.logger_info _ => fun o => (Return tt, o)
    | RunBargptAgent.logger_error _ => fun o => (Return tt, o)
    | RunBargptAgent.ResearchAgent_new =>
        fun o => (Return {| RunBargptAgent.research_agent_id := "research" |}, o)
    | RunBargptAgent.ResearchAgent_run _ _ => fun o => (o, o)
    end.

Definition sample_topics : gmap string RunBargptAgent.Any :=
  {[ "topic" := RunBargptAgent.any_str "spritz" ]}.

Definition hit (url : string) : SearchResult :=
  {| title := url; link := url; snippet := "" |}.

Definition sample_state (max : Z) (hits : list SearchResult)
    : MarketingPlanState :=
  {| appUrl := "app.example"; appName := "App"; appDescription := "An app";
     keyfeatures := ["fast"]; value_proposition := "saves time";
     max_personas := max; competitor_hint := None; personas := [];
     keywords := []; search_results := hits; competitors := [];
     marketing_suggestions := []; subreddits := []; human_feedback := "" |}.

Definition sample_self : VacationHouseAgent.VacationHouseAgent :=
  {| VacationHouseAgent.llm := {| VacationHouseAgent.model := "gpt-4o" |};
     VacationHouseAgent.web_search_tool := VacationHouseAgent.WebSearchTool;
     VacationHouseAgent.scrape_web_tool := VacationHouseAgent.ScrapeWebTool;
     VacationHouseAgent.home_finder_tool := VacationHouseAgent.HomeFinderTool;
     VacationHouseAgent.distance_tool :=
       VacationHouseAgent.DistanceCalculatorTool |}.

(** A graph with an edge computed from the state (a boolean): after [a],
    the node [b] or the node [c]. *)
Definition forked_graph : outcome (LangGraph.StateGraph bool unit) :=
  LangGraph.build [
    LangGraph.add_node "a" tt;
    LangGraph.add_node "b" tt;
    LangGraph.add_node "c" tt;
    LangGraph.add_conditional_edges "a"
      (fun state : bool => if state then ["b"] else ["c"]);
    LangGraph.set_entry_point "a";
    LangGraph.compile
  ].

Definition sample_input : gmap string string :=
  {[ "query" := "a cabin by a lake" ]}.

Definition sample_llm : MarketingAgent.Llm :=
  {| MarketingAgent.model := "gpt-4o" |}.

Definition fresh {W : Type} {E : Type -> Type} (o : W) : world W E :=
  {| outside := o; stdout := []; history := [] |}.

Definition college (n loc : string) : CollegeAgentSchema.College :=
  {| CollegeAgentSchema.name := n; CollegeAgentSchema.location := loc;
     CollegeAgentSchema.description := "";
     CollegeAgentSchema.acceptance_rate := None;
     CollegeAgentSchema.tuition := None;
     CollegeAgentSchema.enrollment := None;
     CollegeAgentSchema.dorm_percentage := None;
     CollegeAgentSchema.sat_scores := None;
     CollegeAgentSchema.programs := None;
     CollegeAgentSchema.url := None;
     CollegeAgentSchema.has_missing_fields := false |}.

End Samples.

(** * Properties *)

(** ** The college reducers *)

Section CollegeReducers.
Import CollegeAgentSchema.

Implicit Types (current result update : list College) (c e : College).

(** The enumeration started at index [length pre] on the colleges after
    [pre], none of [pre] carrying the name looked for: either it breaks at
    the first college with that name, or it runs to the end and leaves the
    list as it is. *)
Lemma enumerate_result_spec pending pre c :
  (forall e, e ∈ pre -> name e <> name c) ->
  let r := enumerate_result (pre ++ pending) c (length pre) pending in
  (r.2 = true /\
   exists (i : nat) e,
     (pre ++ pending) !! i = Some e /\ name e = name c /\
     (forall (j : nat) e', (j < i)%nat -> (pre ++ pending) !! j = Some e' ->
                           name e' <> name c) /\
     r.1 = <[i := c]> (pre ++ pending))
  \/ (r.2 = false /\ r.1 = pre ++ pending /\
      forall e, e ∈ pre ++ pending -> name e <> name c).
Proof.
  revert pre. induction pending as [|x pending IH]; intros pre Hpre; simpl.
  - right. rewrite app_nil_r. auto.
  - destruct (decide (name x = name c)) as [Heq|Hne]; simpl.
    + left. split; [reflexivity|].
      exists (length pre), x. repeat split.
      * apply list_lookup_middle. reflexivity.
      * exact Heq.
      * intros j e' Hj Hl. rewrite lookup_app_l in Hl by exact Hj.
        apply Hpre. eapply list_elem_of_lookup_2. exact Hl.
    + specialize (IH (pre ++ [x])).
      rewrite <- app_assoc, length_app in IH. simpl in IH.
      replace (length pre + 1)%nat with (S (length pre)) in IH by lia.
      apply IH. intros e He. apply elem_of_app in He as [He|He].
      * apply Hpre, He.
      * apply list_elem_of_singleton in He. subst e. exact Hne.
Qed.

Lemma process_college_cases result c :
  (exists (i : nat) e,
      result !! i = Some e /\ name e = name c /\
      (forall (j : nat) e', (j < i)%nat -> result !! j = Some e' ->
                            name e' <> name c) /\
      process_college result c = <[i := c]> result)
  \/ ((forall e, e ∈ result -> name e <> name c) /\
      process_college result c = result ++ [c]).
Proof.
  unfold process_college.
  pose proof (enumerate_result_spec result [] c) as H. simpl in H.
  destruct (enumerate_result result c 0 result) as [r found].
  destruct H as [[Hf H]|[Hf [Hr H]]].
  - intros e He. apply elem_of_nil in He. contradiction.
  - simpl in *. subst found. left. exact H.
  - simpl in *. subst found r. right. split; [exact H | reflexivity].
Qed.

Lemma process_college_spec result c :
  replaces_first_or_appends result c (process_college result c).
Proof.
  destruct (process_college_cases result c)
    as [(i & e & Hi & Hn & Hfirst & ->)|[Hno ->]].
  - left. exists i, e. repeat split; try assumption.
    apply insert_take_drop. eapply lookup_lt_Some. exact Hi.
  - right. split; [exact Hno | reflexivity].
Qed.

(** The relation determines the result: the first college with a given
    name is at one index only. *)
Lemma replaces_first_or_appends_functional result c r1 r2 :
  replaces_first_or_appends result c r1 ->
  replaces_first_or_appends result c r2 -> r1 = r2.
Proof.
  intros [(i & e & Hi & Hn & Hfirst & ->)|[Hno ->]]
         [(i' & e' & Hi' & Hn' & Hfirst' & ->)|[Hno' ->]].
  - assert (i = i') as ->; [|reflexivity].
    destruct (Nat.lt_trichotomy i i') as [Hlt|[Heq|Hgt]]; [|exact Heq|].
    + exfalso. exact (Hfirst' i e Hlt Hi Hn).
    + exfalso. exact (Hfirst i' e' Hgt Hi' Hn').
  - exfalso. apply (Hno' e); [|exact Hn].
    eapply list_elem_of_lookup_2. exact Hi.
  - exfalso. apply (Hno e'); [|exact Hn'].
    eapply list_elem_of_lookup_2. exact Hi'.
  - reflexivity.
Qed.

Lemma merged_colleges_reducer current update :
  merged current update (colleges_reducer current (Some update)).
Proof.
  simpl. revert current.
  induction update as [|c update IH]; intros current; simpl.
  - constructor.
  - econstructor; [apply process_college_spec | apply IH].
Qed.

Lemma merged_functional current update r1 r2 :
  merged current update r1 -> merged current update r2 -> r1 = r2.
Proof.
  intros H1. revert r2.
  induction H1 as [current|current mid result c update Hstep _ IH];
    intros r2 H2; inversion H2; subst.
  - reflexivity.
  - apply IH.
    match goal with
    | Hs : replaces_first_or_appends current c ?m |- _ =>
        rewrite (replaces_first_or_appends_functional _ _ _ _ Hstep Hs)
    end.
    assumption.
Qed.

(** A college whose name differs from the new one keeps its slot. *)
Lemma process_college_keeps result c (i : nat) e :
  result !! i = Some e -> name e <> name c ->
  process_college result c !! i = Some e.
Proof.
  intros Hi Hne.
  destruct (process_college_cases result c)
    as [(k & e0 & Hk & Hn & _ & ->)|[_ ->]].
  - rewrite list_lookup_insert_ne; [exact Hi|].
    intros ->. rewrite Hi in Hk. congruence.
  - rewrite lookup_app_l; [exact Hi|]. eapply lookup_lt_Some. exact Hi.
Qed.

(** The names held by the list after one college is processed. *)
Lemma process_college_names result c :
  NoDup (name <$> result) -> NoDup (name <$> process_college result c).
Proof.
  intros Hnd.
  destruct (process_college_cases result c)
    as [(k & e0 & Hk & Hn & _ & ->)|[Hno ->]].
  - rewrite list_fmap_insert, list_insert_id; [exact Hnd|].
    rewrite list_lookup_fmap, Hk. simpl. congruence.
  - rewrite fmap_app. apply NoDup_app. split; [exact Hnd|]. split.
    + intros n Hin Hin'. simpl in Hin'.
      apply list_elem_of_singleton in Hin'. subst n.
      apply list_elem_of_fmap in Hin as (e & He & Hin).
      exact (Hno e Hin (eq_sym He)).
    + simpl. apply NoDup_singleton.
Qed.

(** C1: [colleges_reducer] merges by name.  With [None] for update the
    current list comes back as it is.  Otherwise the result is the one the
    merge relation describes: the colleges of the update are taken in
    order, each replacing the first college of the accumulated list that
    has its name, or going to the end when there is none.  A college of
    [current] whose name is not in the update is found at the same index,
    unchanged, in the result. *)
Theorem colleges_reducer_merge_by_name current :
  colleges_reducer current None = current /\
  (forall update result,
      merged current update result <->
      result = colleges_reducer current (Some update)) /\
  (forall update c,
      colleges_reducer current (Some (update ++ [c])) =
      process_college (colleges_reducer current (Some update)) c /\
      replaces_first_or_appends (colleges_reducer current (Some update)) c
        (process_college (colleges_reducer current (Some update)) c)) /\
  (forall update (i : nat) e,
      current !! i = Some e ->
      name e ∉ name <$> update ->
      colleges_reducer current (Some update) !! i = Some e).
Proof.
  split; [reflexivity|]. split; [|split].
  - intros update result. split.
    + intros H. eapply merged_functional; [exact H|].
      apply merged_colleges_reducer.
    + intros ->. apply merged_colleges_reducer.
  - intros update c. split.
    + simpl. rewrite foldl_app. reflexivity.
    + apply process_college_spec.
  - intros update. simpl. revert current.
    induction update as [|c update IH]; intros current i e Hi Hnot; simpl.
    + exact Hi.
    + apply IH.
      * apply process_college_keeps; [exact Hi|].
        intros Heq. apply Hnot. rewrite Heq. simpl. left.
      * intros Hin. apply Hnot. simpl. right. exact Hin.
Qed.

(** C8: the reducer keeps names unique.  When no two colleges of [current]
    share a name, no two colleges of the result do, whatever the update
    (a list, with or without repeated names, or [None]). *)
Theorem colleges_reducer_names_unique current (update : option (list College)) :
  NoDup (name <$> current) ->
  NoDup (name <$> colleges_reducer current update).
Proof.
  destruct update as [update|]; simpl; [|auto].
  revert current. induction update as [|c update IH]; intros current Hnd.
  - exact Hnd.
  - simpl. apply IH, process_college_names, Hnd.
Qed.

End CollegeReducers.

Section ListAppendFields.
Import CollegeAgentSchema.

(** C2: the keys [search_results], [recommendations], [messages] and
    [status_updates] of [CollegeFinderState] are merged by list append:
    the merged value is the current list followed by the update (an update
    without the key appends nothing).  Appending the empty list, on either
    side, changes nothing, and appending is associative. *)
Theorem list_fields_merge_by_append (s : CollegeFinderState)
    (u : CollegeFinderUpdate) :
  (search_results (merge_update s u) =
     search_results s ++ default [] (u_search_results u) /\
   recommendations (merge_update s u) =
     recommendations s ++ default [] (u_recommendations u) /\
   messages (merge_update s u) = messages s ++ default [] (u_messages u) /\
   status_updates (merge_update s u) =
     status_updates s ++ default [] (u_status_updates u)) /\
  (forall (A : Type) (current update : list A),
      operator_add current update = current ++ update /\
      annotated operator_add current (Some update) = current ++ update) /\
  (forall (A : Type) (l : list A),
      operator_add l [] = l /\ operator_add [] l = l) /\
  (forall (A : Type) (a b c : list A),
      operator_add (operator_add a b) c = operator_add a (operator_add b c)).
Proof.
  repeat split.
  - simpl. destruct (u_search_results u); simpl;
      [reflexivity | symmetry; apply app_nil_r].
  - simpl. destruct (u_recommendations u); simpl;
      [reflexivity | symmetry; apply app_nil_r].
  - simpl. destruct (u_messages u); simpl;
      [reflexivity | symmetry; apply app_nil_r].
  - simpl. destruct (u_status_updates u); simpl;
      [reflexivity | symmetry; apply app_nil_r].
  - unfold operator_add. apply app_nil_r.
  - unfold operator_add. symmetry. apply app_assoc.
Qed.

End ListAppendFields.

(** ** Runs of a graph without computed edges *)

Section PregelFacts.
Import Py LangGraph Pregel.
Context {W : Type} {E : Type -> Type} `{!Outside W E}.
Context {State Update : Type}.

Implicit Types (g : StateGraph State (State -> M W E Update))
  (state : State) (w : world W E) (ran names : list string).






End PregelFacts.

(** ** The marketing graph *)

Section MarketingGraph.
Import Py LangGraph MarketingSchema MarketingAgent.
Context {W : Type} `{!Outside W event}.



End MarketingGraph.

(** With an edge computed from the state the order does depend on the
    states, which the marketing graph, having none, excludes. *)
Example forked_graph_order :
  exists g : LangGraph.StateGraph bool unit,
    Samples.forked_graph = Py.Return g /\
    LangGraph.run_order g (fun _ => true) 5 = [["a"]; ["b"]] /\
    LangGraph.run_order g (fun _ => false) 5 = [["a"]; ["c"]].
Proof. eexists. repeat split; vm_compute; reflexivity. Qed.

(** ** The vacation-house crew *)

Section VacationHouse.
Import Py VacationHouseAgent.
Context {W : Type} `{!Outside W event}.

Implicit Types (self : VacationHouseAgent) (w : world W event).

(** [run], once the query is read, by what [kickoff] answers. *)
Lemma run_unfold self (input_data : gmap string string) (query : string) w :
  input_data !! "query" = Some query ->
  run self input_data w =
    match answer CrewOutput (kickoff (crew_of self query)) (outside w) with
    | (Return results, o) =>
        (Return (results_of_crew results),
         {| outside := o;
            stdout := stdout w ++ ["Crew Results:  " +:+ raw results];
            history :=
              history w ++ [called (kickoff (crew_of self query))] |})
    | (Raise e, o) =>
        if derives_Exception e
        then (Return (text ("Error running crew: " +:+ exn_str e)),
              {| outside := o;
                 stdout := stdout w ++ ["Crew Error: " +:+ exn_str e];
                 history :=
                   history w ++
                   [called (kickoff (crew_of self query))] |})
        else (Raise e,
              {| outside := o; stdout := stdout w;
                 history :=
                   history w ++
                   [called (kickoff (crew_of self query))] |})
    end.
Proof.
  intros Hq.
  unfold run, bind, lift, getitem, try_except_Exception, perform, print, ret.
  rewrite Hq. fold (crew_of self query).
  destruct (answer CrewOutput (kickoff (crew_of self query)) (outside w))
    as [[results|e] o]; simpl; [reflexivity|].
  destruct (derives_Exception e); reflexivity.
Qed.

(** C4: [create_tasks] returns five tasks, in the order city research,
    vacation homes, verification of the listings, local businesses,
    summary.  The first is given no context; each of the next three is
    given the task before it, and nothing else, as context; the summary is
    given the city research, the verification and the local businesses.
    When [run] finds the query in its input, the one call it makes to the
    crew runtime is the kickoff of a crew that holds these tasks and whose
    process is sequential. *)
Theorem create_tasks_linear_chain self (input_data : gmap string string)
    (query : string) w :
  input_data !! "query" = Some query ->
  let city_research_task :=
    find_candidate_cities_task self (city_researcher self) query in
  let real_estate_task :=
    find_vacation_homes_task self (real_estate_agent self) query
      city_research_task in
  let verify_listings_task :=
    verify_listings self (real_estate_agent self) real_estate_task in
  let local_business_task :=
    find_local_businesses_task self (local_expert self) verify_listings_task in
  let summary_task :=
    summarize_task self (city_researcher self) query
      [city_research_task; verify_listings_task; local_business_task] in
  create_tasks self query =
    [city_research_task; real_estate_task; verify_listings_task;
     local_business_task; summary_task] /\
  Task.context city_research_task = None /\
  Task.context real_estate_task = Some [city_research_task] /\
  Task.context verify_listings_task = Some [real_estate_task] /\
  Task.context local_business_task = Some [verify_listings_task] /\
  Task.context summary_task =
    Some [city_research_task; verify_listings_task; local_business_task] /\
  exists crew : Crew,
    history (run self input_data w).2 =
      history w ++ [called (kickoff crew)] /\
    tasks crew = create_tasks self query /\
    process crew = sequential.
Proof.
  intros Hq. cbv zeta.
  do 6 (split; [reflexivity|]).
  exists (crew_of self query). split; [|split; reflexivity].
  rewrite (run_unfold _ _ _ _ Hq).
  destruct (answer CrewOutput (kickoff (crew_of self query)) (outside w))
    as [[results|e] o]; [reflexivity|].
  destruct (derives_Exception e); reflexivity.
Qed.

(** C6, as the code has it: [run] never propagates an exception of the
    crew whose class derives from [Exception].  When the kickoff of the
    crew returns, [run] prints the results and returns them as they are;
    when it raises an exception [e] whose class derives from [Exception],
    [run] prints the error and returns the text [Error running crew: ]
    followed by the message of [e].  (Without the key [query] in its input
    [run] raises [KeyError] before any crew is built.) *)
Theorem run_catches_Exception self (input_data : gmap string string) w :
  match input_data !! "query" with
  | None => run self input_data w = (Raise (KeyError "query"), w)
  | Some query =>
      match answer CrewOutput (kickoff (crew_of self query)) (outside w) with
      | (Return results, _) =>
          (run self input_data w).1 = Return (results_of_crew results) /\
          stdout (run self input_data w).2 =
            stdout w ++ ["Crew Results:  " +:+ raw results]
      | (Raise e, _) =>
          derives_Exception e = true ->
          (run self input_data w).1 =
            Return (text ("Error running crew: " +:+ exn_str e)) /\
          stdout (run self input_data w).2 =
            stdout w ++ ["Crew Error: " +:+ exn_str e]
      end
  end.
Proof.
  destruct (input_data !! "query") as [query|] eqn:Hq.
  - rewrite (run_unfold _ _ _ _ Hq).
    destruct (answer CrewOutput (kickoff (crew_of self query)) (outside w))
      as [[results|e] o]; [split; reflexivity|].
    intros ->. split; reflexivity.
  - unfold run, bind, lift, getitem. rewrite Hq. reflexivity.
Qed.

End VacationHouse.

(** ** Calls to the outside *)

Section CallsOnly.
Import Py Py.Notations.
Context {W : Type} {E : Type -> Type} `{!Outside W E}.

Implicit Types (P : {R : Type & E R} -> Prop).






End CallsOnly.

(** ** The nodes of the marketing graph *)

Section MarketingNodes.
Import Py Py.Notations SearchWeb MarketingSchema MarketingAgent.
Context {W : Type} `{!Outside W event}.

Implicit Types (state : MarketingPlanState) (w : world W event).






End MarketingNodes.

Section StructuredOutput.
Import Py Py.Notations SearchWeb MarketingSchema MarketingAgent.
Context {W : Type} `{!Outside W event}.



End StructuredOutput.

(** ** Slices and the cap on personas *)

Section Personas.
Import Py Py.Notations SearchWeb MarketingSchema MarketingAgent.

Lemma slice_to_prefix {A : Type} (l : list A) (stop : Z) :
  slice_to l stop `prefix_of` l.
Proof. unfold slice_to. destruct (stop <? 0); apply prefix_take. Qed.

Lemma slice_to_length {A : Type} (l : list A) (stop : Z) :
  0 <= stop -> Z.of_nat (length (slice_to l stop)) <= stop.
Proof.
  intros Hstop. unfold slice_to.
  destruct (Z.ltb_spec stop 0) as [Hneg|_]; [lia|].
  rewrite length_take. lia.
Qed.

(** With a negative stop the slice drops elements from the end, and keeps
    the others. *)
Lemma slice_to_negative {A : Type} (l : list A) (stop : Z) :
  stop < 0 ->
  length (slice_to l stop) = (length l - Z.to_nat (- stop))%nat.
Proof.
  intros Hneg. unfold slice_to.
  destruct (Z.ltb_spec stop 0) as [_|Hpos]; [|lia].
  rewrite length_take. lia.
Qed.

Context {W : Type} `{!Outside W event}.

(** C9, as the code has it: when the model is fetched and answers the
    prompt of [create_personas] with a list of personas, the node returns
    and writes under [personas] a prefix of that list; when
    [int(state['max_personas'])] is not negative, the prefix has at most
    that many elements. *)
Theorem create_personas_caps (state : MarketingPlanState)
    (w : world W event) (llm : Llm) (o o' : W) (response : PersonaList) :
  answer Llm get_llm (outside w) = (Return llm, o) ->
  answer PersonaList
    (invoke (with_structured_output llm cls_PersonaList)
       (prompt_create_personas (max_personas state) (appName state)
          (appDescription state) (keyfeatures state)
          (value_proposition state))) o
    = (Return response, o') ->
  exists (written : list Persona) (w' : world W event),
    create_personas state w = (Return [item_personas written], w') /\
    written `prefix_of` PersonaList_personas response /\
    (0 <= int (max_personas state) ->
     Z.of_nat (length written) <= int (max_personas state)).
Proof.
  intros Hllm Hinv.
  exists (slice_to (PersonaList_personas response) (int (max_personas state))).
  eexists. split; [|split].
  - unfold create_personas, bind, perform, ret. rewrite Hllm. simpl.
    rewrite Hinv. reflexivity.
  - apply slice_to_prefix.
  - apply slice_to_length.
Qed.

End Personas.

(** ** The loop of [finalize_competitors] *)

Section CompetitorLoop.
Import Py Py.Notations SearchWeb MarketingSchema MarketingAgent.
Context {W : Type} `{!Outside W event}.

Implicit Types (llm : Llm) (search_result : SearchResult)
  (pending : list SearchResult) (results : list Competitor)
  (w : world W event).

(** What the [try] body gives back extends [results]; what it raises was
    raised by the outside. *)
Lemma extract_from_link_cases llm search_result results w :
  match extract_from_link llm search_result results w with
  | (Return results', _) => results `prefix_of` results'
  | (Raise e, _) =>
      exists (R : Type) (ev : event R) (o o' : W),
        answer R ev o = (Raise e, o')
  end.
Proof.
  unfold extract_from_link, bind, perform, ret.
  destruct (answer Document (scrape_web (link search_result)) (outside w))
    as [[doc|e] o] eqn:Hdoc; simpl.
  - destruct (answer CompetitorList
                (invoke (with_structured_output llm cls_CompetitorList)
                   (prompt_extract_competitors (page_content doc))) o)
      as [[competitors|e] o'] eqn:Hinv; simpl.
    + apply prefix_app_r. reflexivity.
    + eauto.
  - eauto.
Qed.

Lemma guarded_link_caught llm search_result results w (e : exn)
    (w1 : world W event) :
  extract_from_link llm search_result results w = (Raise e, w1) ->
  derives_Exception e = true ->
  try_except_Exception (extract_from_link llm search_result results)
    (report_link_error search_result results) w
  = (Return results,
     {| outside := outside w1;
        stdout :=
          stdout w1 ++
          ["Error processing " +:+ link search_result +:+ ": " +:+ exn_str e];
        history := history w1 |}).
Proof.
  intros Hraise Hexc. unfold try_except_Exception. rewrite Hraise, Hexc.
  reflexivity.
Qed.

Lemma guarded_link_returned llm search_result results w
    (results' : list Competitor) (w1 : world W event) :
  extract_from_link llm search_result results w = (Return results', w1) ->
  try_except_Exception (extract_from_link llm search_result results)
    (report_link_error search_result results) w
  = (Return results', w1).
Proof. intros Hret. unfold try_except_Exception. rewrite Hret. reflexivity. Qed.

(** When the outside raises only exceptions that derive from [Exception],
    the loop returns, and what had been gathered is still there. *)
Lemma for_search_results_returns llm pending results w :
  (forall (R : Type) (ev : event R) (o o' : W) (e : exn),
      answer R ev o = (Raise e, o') -> derives_Exception e = true) ->
  exists (final : list Competitor) (w' : world W event),
    for_search_results llm pending results w = (Return final, w') /\
    results `prefix_of` final.
Proof.
  intros Hexc. revert results w.
  induction pending as [|sr pending IH]; intros results w.
  - exists results, w. split; reflexivity.
  - simpl. unfold bind at 1.
    pose proof (extract_from_link_cases llm sr results w) as Hcases.
    destruct (extract_from_link llm sr results w) as [[results'|e] w1] eqn:Hrun.
    + rewrite (guarded_link_returned _ _ _ _ _ _ Hrun).
      destruct (IH results' w1) as (final & w' & Hloop & Hpre).
      exists final, w'. split; [exact Hloop|]. etrans; eassumption.
    + destruct Hcases as (R & ev & o & o' & Hans).
      rewrite (guarded_link_caught _ _ _ _ _ _ Hrun (Hexc _ _ _ _ _ Hans)).
      apply IH.
Qed.

(** C5, as the code has it: [finalize_competitors] recovers from the
    failure of a link by catching and logging.  For a search result and
    the search results left after it: when the fetch of the page or the
    extraction raises an exception whose class derives from [Exception],
    the exception is caught, a line naming the link and the exception is
    printed, and the loop goes on with the search results left and the
    results as they were; when it returns, the loop goes on with the
    results it gave, which extend the ones before.  When the outside
    raises only such exceptions, the loop returns and what had been
    gathered is in what it returns: no exception leaves the loop and no
    competitor of another link is lost. *)
Theorem link_errors_caught_and_logged llm search_result pending results w :
  let attempt := extract_from_link llm search_result results w in
  let guarded :=
    try_except_Exception (extract_from_link llm search_result results)
      (report_link_error search_result results) w in
  match attempt.1 with
  | Raise e =>
      derives_Exception e = true ->
      guarded =
        (Return results,
         {| outside := outside attempt.2;
            stdout :=
              stdout attempt.2 ++
              ["Error processing " +:+ link search_result +:+ ": "
               +:+ exn_str e];
            history := history attempt.2 |}) /\
      for_search_results llm (search_result :: pending) results w
      = for_search_results llm pending results guarded.2
  | Return results' =>
      guarded = attempt /\
      results `prefix_of` results' /\
      for_search_results llm (search_result :: pending) results w
      = for_search_results llm pending results' attempt.2
  end /\
  ((forall (R : Type) (ev : event R) (o o' : W) (e : exn),
       answer R ev o = (Raise e, o') -> derives_Exception e = true) ->
   exists (final : list Competitor) (w' : world W event),
     for_search_results llm (search_result :: pending) results w
     = (Return final, w') /\
     results `prefix_of` final).
Proof.
  cbv zeta. split; [|apply for_search_results_returns].
  pose proof (extract_from_link_cases llm search_result results w) as Hcases.
  destruct (extract_from_link llm search_result results w)
    as [[r|e] w0] eqn:Hrun; cbn [fst snd].
  - pose proof (guarded_link_returned _ _ _ _ _ _ Hrun) as Hguard.
    split; [exact Hguard|]. split; [exact Hcases|].
    simpl. unfold bind at 1. rewrite Hguard. reflexivity.
  - intros Hexc.
    pose proof (guarded_link_caught _ _ _ _ _ _ Hrun Hexc) as Hguard.
    split; [exact Hguard|].
    simpl. unfold bind at 1. rewrite Hguard. reflexivity.
Qed.

End CompetitorLoop.

(** ** The registry of agents *)

Section Registry.
Import Py MarketingSchema Agents.
Context {W : Type} `{!Outside W MarketingAgent.event}.

Implicit Types (registry : gmap string (@Agent W)) (agent : @Agent W).

Lemma get_agent_lookup registry (agent_id : string) :
  get_agent registry agent_id =
    match registry !! agent_id with
    | Some agent => Return (graph agent)
    | None => Raise (KeyError agent_id)
    end.
Proof.
  unfold get_agent, getitem. destruct (registry !! agent_id); reflexivity.
Qed.

Lemma get_all_agent_info_elem registry (info : AgentInfo) :
  info ∈ get_all_agent_info registry <->
  exists (agent_id : string) agent,
    registry !! agent_id = Some agent /\
    info = {| key := agent_id; AgentInfo_description := description agent |}.
Proof.
  unfold get_all_agent_info. rewrite list_elem_of_fmap. split.
  - intros ([agent_id agent] & -> & Hin).
    apply elem_of_map_to_list in Hin. eauto.
  - intros (agent_id & agent & Hlook & ->).
    exists (agent_id, agent). split; [reflexivity|].
    apply elem_of_map_to_list. exact Hlook.
Qed.

Lemma get_all_agent_info_keys registry :
  key <$> get_all_agent_info registry = (map_to_list registry).*1.
Proof.
  unfold get_all_agent_info. rewrite <- list_fmap_compose.
  apply list_fmap_ext. intros _ [agent_id agent] _. reflexivity.
Qed.

Lemma create_marketing_graph_returns :
  exists g : @CompiledStateGraph W,
    MarketingAgent.create_marketing_graph = Return g.
Proof. eexists. vm_compute. reflexivity. Qed.

(** C10: [get_agent] is defined on the registered ids and on them only.
    For an id that is a key of the dict it returns the graph of the agent
    kept under it; for any other id it raises [KeyError].
    [get_all_agent_info] gives, for each registered agent and for nothing
    else, one [AgentInfo] with the id as key and the description of the
    agent.  The dict of the module, [all_agents], has the one key
    [marketing-agent], under which it keeps the marketing graph. *)
Theorem get_agent_defined_on_registered registry :
  (forall (agent_id : string) agent,
      registry !! agent_id = Some agent ->
      get_agent registry agent_id = Return (graph agent)) /\
  (forall agent_id : string,
      agent_id ∉ dom registry ->
      get_agent registry agent_id = Raise (KeyError agent_id)) /\
  (forall info : AgentInfo,
      info ∈ get_all_agent_info registry <->
      exists (agent_id : string) agent,
        registry !! agent_id = Some agent /\
        info = {| key := agent_id;
                  AgentInfo_description := description agent |}) /\
  NoDup (key <$> get_all_agent_info registry) /\
  length (get_all_agent_info registry) = size registry /\
  exists (module_dict : gmap string (@Agent W))
         (marketing_agent : @CompiledStateGraph W),
    all_agents = Return module_dict /\
    MarketingAgent.create_marketing_graph = Return marketing_agent /\
    dom module_dict = {["marketing-agent"]} /\
    get_agent module_dict "marketing-agent" = Return marketing_agent /\
    get_all_agent_info module_dict =
      [{| key := "marketing-agent";
          AgentInfo_description := "A marketing agent." |}].
Proof.
  split; [|split; [|split; [|split; [|split]]]].
  - intros agent_id agent Hlook. rewrite get_agent_lookup, Hlook. reflexivity.
  - intros agent_id Hdom. rewrite get_agent_lookup.
    apply not_elem_of_dom in Hdom. rewrite Hdom. reflexivity.
  - apply get_all_agent_info_elem.
  - rewrite get_all_agent_info_keys. apply NoDup_fst_map_to_list.
  - unfold get_all_agent_info. rewrite length_fmap.
    apply length_map_to_list.
  - destruct create_marketing_graph_returns as [g Hg].
    eexists _, g. unfold all_agents. rewrite Hg.
    split; [reflexivity|]. split; [reflexivity|]. split; [|split].
    + apply dom_singleton_L.
    + rewrite get_agent_lookup, lookup_singleton_eq. reflexivity.
    + unfold get_all_agent_info. rewrite map_to_list_singleton. reflexivity.
Qed.

End Registry.

(** ** Runs on the sample outsides *)

Import Py Samples.

(** Merging [Reed] (already there) and [Rice] (twice in the update): one
    slot is overwritten, one college is added and then overwritten. *)
Example colleges_reducer_run :
  CollegeAgentSchema.colleges_reducer
    [college "MIT" "MA"; college "Reed" "OR"]
    (Some [college "Reed" "Portland"; college "Rice" "TX";
           college "Rice" "Houston"])
  = [college "MIT" "MA"; college "Reed" "Portland"; college "Rice" "Houston"].
Proof. vm_compute. reflexivity. Qed.

Lemma colleges_reducer_names_unique_witness :
  NoDup (CollegeAgentSchema.name
           <$> [college "MIT" "MA"; college "Reed" "OR"]) /\
  NoDup (CollegeAgentSchema.name
           <$> CollegeAgentSchema.colleges_reducer
                 [college "MIT" "MA"; college "Reed" "OR"]
                 (Some [college "Reed" "Portland"; college "Rice" "TX";
                        college "Rice" "Houston"])).
Proof.
  assert (NoDup (CollegeAgentSchema.name
                   <$> [college "MIT" "MA"; college "Reed" "OR"])) as Hnd.
  { apply (bool_decide_unpack _). vm_compute. exact I. }
  split; [exact Hnd|].
  apply (colleges_reducer_names_unique _ _ Hnd).
Defined.

Lemma sample_input_query : sample_input !! "query" = Some "a cabin by a lake".
Proof. apply lookup_singleton_eq. Qed.

Lemma create_tasks_linear_chain_witness :
  sample_input !! "query" = Some "a cabin by a lake" /\
  exists crew : VacationHouseAgent.Crew,
    history
      (VacationHouseAgent.run (Outside0 := crew_outside) sample_self
         sample_input
         (fresh (Return {| VacationHouseAgent.raw := "two homes" |}))).2
    = [called (VacationHouseAgent.kickoff crew)] /\
    VacationHouseAgent.tasks crew =
      VacationHouseAgent.create_tasks sample_self "a cabin by a lake" /\
    VacationHouseAgent.process crew = VacationHouseAgent.sequential.
Proof.
  split; [exact sample_input_query|].
  destruct (@create_tasks_linear_chain _ crew_outside sample_self sample_input
              "a cabin by a lake"
              (fresh (Return {| VacationHouseAgent.raw := "two homes" |}))
              sample_input_query)
    as (_ & _ & _ & _ & _ & _ & crew & Hhist & Htasks & Hproc).
  exists crew. auto.
Defined.

(** The kickoff returns: the results are printed and returned. *)
Example run_returns_results :
  VacationHouseAgent.run (Outside0 := crew_outside) sample_self sample_input
    (fresh (Return {| VacationHouseAgent.raw := "two homes" |}))
  = (Return (VacationHouseAgent.results_of_crew
               {| VacationHouseAgent.raw := "two homes" |}),
     {| outside := Return {| VacationHouseAgent.raw := "two homes" |};
        stdout := ["Crew Results:  two homes"];
        history :=
          [called (VacationHouseAgent.kickoff
                     (VacationHouseAgent.crew_of sample_self
                        "a cabin by a lake"))] |}).
Proof. vm_compute. reflexivity. Qed.

Lemma run_catches_Exception_witness :
  derives_Exception RateLimitError = true /\
  (VacationHouseAgent.run (Outside0 := crew_outside) sample_self sample_input
     (fresh (Raise RateLimitError))).1
  = Return (VacationHouseAgent.text "Error running crew: rate limit reached") /\
  stdout
    (VacationHouseAgent.run (Outside0 := crew_outside) sample_self sample_input
       (fresh (Raise RateLimitError))).2
  = ["Crew Error: rate limit reached"].
Proof.
  split; [reflexivity|].
  pose proof (@run_catches_Exception _ crew_outside sample_self sample_input
                (fresh (Raise RateLimitError))) as Hrun.
  rewrite sample_input_query in Hrun.
  exact (Hrun eq_refl).
Defined.

(** Counterexample to C6 as stated: a [KeyboardInterrupt] raised while the
    crew runs is not an [Exception]; [run] does not catch it, prints
    nothing and returns nothing. *)
Lemma run_propagates_KeyboardInterrupt :
  (VacationHouseAgent.run (Outside0 := crew_outside) sample_self sample_input
     (fresh (Raise KeyboardInterrupt))).1
  = Raise KeyboardInterrupt /\
  stdout
    (VacationHouseAgent.run (Outside0 := crew_outside) sample_self sample_input
       (fresh (Raise KeyboardInterrupt))).2
  = [].
Proof. split; vm_compute; reflexivity. Qed.

(** What a sample web raises is one of its faults. *)
Lemma web_outside_raises (faults : list (string * exn)) (R : Type)
    (ev : MarketingAgent.event R) (o o' : unit) (e : exn) :
  @answer unit MarketingAgent.event (web_outside faults) R ev o = (Raise e, o') ->
  e ∈ faults.*2.
Proof.
  destruct ev as [|r prompt| | |url| | | |]; try (simpl; discriminate).
  - destruct r; simpl; discriminate.
  - unfold answer, web_outside.
    destruct (list_to_map (M := gmap string exn) faults !! url)
      as [e0|] eqn:Hlook; [|discriminate].
    intros [= <- _]. apply elem_of_list_to_map_2 in Hlook.
    apply (list_elem_of_fmap_2 snd) in Hlook. exact Hlook.
Qed.

Lemma flaky_web_raises_Exception (R : Type) (ev : MarketingAgent.event R)
    (o o' : unit) (e : exn) :
  @answer unit MarketingAgent.event flaky_web R ev o = (Raise e, o') ->
  derives_Exception e = true.
Proof.
  intros Hans. apply web_outside_raises in Hans. simpl in Hans.
  apply list_elem_of_singleton in Hans. subst e. reflexivity.
Qed.

(** Three links, the second one down: its error is printed, the
    competitors of the first and of the third are both kept. *)
Example for_search_results_run :
  let r := MarketingAgent.for_search_results (Outside0 := flaky_web) sample_llm
             [hit "a.example"; hit "down.example"; hit "b.example"] []
             (fresh tt) in
  r.1 = Return [competitor "a.example"; competitor "b.example"] /\
  stdout r.2 = ["Error processing down.example: connection refused"].
Proof. split; vm_compute; reflexivity. Qed.

Lemma link_errors_caught_and_logged_witness :
  (forall (R : Type) (ev : MarketingAgent.event R) (o o' : unit) (e : exn),
      @answer unit MarketingAgent.event flaky_web R ev o = (Raise e, o') ->
      derives_Exception e = true) /\
  exists (final : list MarketingSchema.Competitor)
         (w' : world unit MarketingAgent.event),
    MarketingAgent.for_search_results (Outside0 := flaky_web) sample_llm
      [hit "down.example"; hit "b.example"] [competitor "a.example"]
      (fresh tt)
    = (Return final, w') /\
    [competitor "a.example"] `prefix_of` final.
Proof.
  split; [exact flaky_web_raises_Exception|].
  exact (proj2 (@link_errors_caught_and_logged unit flaky_web sample_llm
                  (hit "down.example") [hit "b.example"]
                  [competitor "a.example"] (fresh tt))
           flaky_web_raises_Exception).
Defined.

(** Counterexample to C5 as stated: the fetch of the second page is
    cancelled, and [asyncio.CancelledError] is not an [Exception]; it
    leaves the loop, the third link is not visited and the competitor of
    the first is not returned. *)
Lemma cancelled_link_leaves_loop :
  let r := MarketingAgent.for_search_results (Outside0 := cancelling_web)
             sample_llm
             [hit "a.example"; hit "slow.example"; hit "b.example"] []
             (fresh tt) in
  r.1 = Raise CancelledError /\
  history r.2 =
    [called (MarketingAgent.scrape_web "a.example");
     called (MarketingAgent.invoke
               (MarketingAgent.with_structured_output sample_llm
                  MarketingAgent.cls_CompetitorList)
               (MarketingAgent.prompt_extract_competitors "a.example"));
     called (MarketingAgent.scrape_web "slow.example")] /\
  stdout r.2 = [].
Proof. repeat split; vm_compute; reflexivity. Qed.

Lemma create_personas_caps_witness :
  exists (written : list MarketingSchema.Persona)
         (w' : world unit MarketingAgent.event),
    MarketingAgent.create_personas (Outside0 := flaky_web)
      (sample_state 2 []) (fresh tt)
    = (Return [MarketingSchema.item_personas written], w') /\
    written `prefix_of` [persona "Ada"; persona "Bo"; persona "Cy"] /\
    (0 <= 2 -> Z.of_nat (length written) <= 2).
Proof.
  exact (@create_personas_caps unit flaky_web (sample_state 2 []) (fresh tt)
           sample_llm tt tt
           (canned MarketingAgent.cls_PersonaList
              (MarketingAgent.prompt_create_personas 2 "App" "An app"
                 ["fast"] "saves time"))
           eq_refl eq_refl).
Defined.

(** Counterexample to C9 as stated: with [max_personas] at [-1] the slice
    drops the last of the three personas of the model and two are written,
    more than [-1]. *)
Lemma create_personas_negative_max :
  (MarketingAgent.create_personas (Outside0 := flaky_web)
     (sample_state (-1) []) (fresh tt)).1
  = Return [MarketingSchema.item_personas [persona "Ada"; persona "Bo"]] /\
  ~ (Z.of_nat (length [persona "Ada"; persona "Bo"])
     <= MarketingAgent.int (MarketingSchema.max_personas (sample_state (-1) []))).
Proof. split; [vm_compute; reflexivity|]. vm_compute. intros H. apply H. reflexivity. Qed.

(** On a web without faults every node returns and the run visits the
    eight nodes. *)
Example marketing_graph_full_run :
  match MarketingAgent.create_marketing_graph (Outside0 := web_outside []) with
  | Return g =>
      Pregel.visited
        (Pregel.run_graph MarketingRun.write g 25 (sample_state 3 [])
           (fresh tt))
      = [["analyze_site"]; ["create_personas"]; ["extract_keywords"];
         ["search_web_for_competitors_by_hint"]; ["finalize_competitors"];
         ["get_marketing_suggestions"; "get_subreddits"]; ["__END__"]]
  | Raise _ => False
  end.
Proof. vm_compute. reflexivity. Qed.


(** * Further properties *)

(** ** The reducer of colleges, one college at a time *)

Section Upsert.
Import CollegeAgentSchema Readings.

Implicit Types (current result update l : list College) (c d e : College).

Lemma upsert_spec l c : replaces_first_or_appends l c (upsert l c).
Proof.
  induction l as [|e l IH]; simpl.
  - right. split; [|reflexivity]. intros e He. apply elem_of_nil in He. done.
  - destruct (decide (name e = name c)) as [Heq|Hne].
    + left. exists 0%nat, e. repeat split; try done. intros j e' Hj. lia.
    + destruct IH as [(i & e0 & Hi & Hn & Hfirst & ->)|[Hno ->]].
      * left. exists (S i), e0. repeat split; try done.
        intros [|j] e' Hj Hl; simpl in Hl.
        -- injection Hl as <-. exact Hne.
        -- apply (Hfirst j); [lia | exact Hl].
      * right. split; [|reflexivity].
        intros e' He'. apply elem_of_cons in He' as [->|He']; auto.
Qed.

(** One iteration of the outer loop of the reducer is [upsert]. *)
Lemma process_college_upsert l c : process_college l c = upsert l c.
Proof.
  eapply replaces_first_or_appends_functional;
    [apply process_college_spec | apply upsert_spec].
Qed.

Lemma colleges_reducer_upsert current update :
  colleges_reducer current (Some update) = foldl upsert current update.
Proof.
  simpl. revert current. induction update as [|c update IH]; intros current.
  - reflexivity.
  - simpl. rewrite process_college_upsert. apply IH.
Qed.

Lemma upsert_length l c :
  (length l <= length (upsert l c) <= S (length l))%nat.
Proof.
  induction l as [|e l IH]; simpl; [lia|].
  destruct (decide (name e = name c)); simpl; lia.
Qed.

Lemma upsert_names l c (n : string) :
  n ∈ name <$> upsert l c <-> n ∈ name <$> l \/ n = name c.
Proof.
  induction l as [|e l IH]; simpl.
  - rewrite list_elem_of_singleton. split; [auto|]. intros [H|H]; [|done].
    apply elem_of_nil in H. done.
  - destruct (decide (name e = name c)) as [Heq|Hne]; simpl.
    + rewrite !elem_of_cons, Heq. tauto.
    + rewrite !elem_of_cons, IH. tauto.
Qed.

Lemma upsert_absent l c :
  name c ∉ name <$> l -> upsert l c = l ++ [c].
Proof.
  induction l as [|e l IH]; simpl; intros Hnot; [reflexivity|].
  destruct (decide (name e = name c)) as [Heq|Hne].
  - exfalso. apply Hnot. rewrite Heq. left.
  - rewrite IH; [reflexivity|]. intros Hin. apply Hnot. right. exact Hin.
Qed.

(** X1: the reducer never drops a college and adds at most one per college
    of the update. *)
Theorem colleges_reducer_length current update :
  (length current <= length (colleges_reducer current (Some update))
   <= length current + length update)%nat.
Proof.
  rewrite colleges_reducer_upsert. revert current.
  induction update as [|c update IH]; intros current; simpl; [lia|].
  specialize (IH (upsert current c)).
  pose proof (upsert_length current c). lia.
Qed.

Lemma foldl_process_college_names current update (n : string) :
  n ∈ name <$> foldl process_college current update <->
  n ∈ name <$> current \/ n ∈ name <$> update.
Proof.
  pose proof (colleges_reducer_upsert current update) as Hfold.
  simpl in Hfold. rewrite Hfold. clear Hfold. revert current.
  induction update as [|c update IH]; intros current; simpl.
  - split; [auto|]. intros [H|H]; [done|]. apply elem_of_nil in H. done.
  - rewrite IH, upsert_names, elem_of_cons. tauto.
Qed.

(** X2: the names held by the result are those of the current list and
    those of the update, and no other. *)
Theorem colleges_reducer_names current update (n : string) :
  n ∈ name <$> colleges_reducer current (Some update) <->
  n ∈ name <$> current \/ n ∈ name <$> update.
Proof. apply foldl_process_college_names. Qed.

(** X4: merging two updates one after the other is merging the one update
    made of the first followed by the second. *)
Theorem colleges_reducer_compose current (update1 update2 : list College) :
  colleges_reducer (colleges_reducer current (Some update1)) (Some update2)
  = colleges_reducer current (Some (update1 ++ update2)).
Proof. simpl. rewrite foldl_app. reflexivity. Qed.

(** X6: when the update brings only new names, each once, the reducer is
    list append. *)
Theorem colleges_reducer_fresh_names current update :
  NoDup (name <$> update) ->
  (forall n : string, n ∈ name <$> update -> n ∉ name <$> current) ->
  colleges_reducer current (Some update) = current ++ update.
Proof.
  rewrite colleges_reducer_upsert. revert current.
  induction update as [|c update IH]; intros current Hnd Hfresh; simpl.
  - symmetry. apply app_nil_r.
  - simpl in Hnd. apply NoDup_cons in Hnd as [Hc Hnd].
    rewrite upsert_absent by (apply Hfresh; left).
    rewrite IH; [rewrite <- app_assoc; reflexivity | exact Hnd |].
    intros n Hn Hin. rewrite fmap_app in Hin.
    apply elem_of_app in Hin as [Hin|Hin].
    + apply (Hfresh n); [right; exact Hn | exact Hin].
    + simpl in Hin. apply list_elem_of_singleton in Hin. subst n. done.
Qed.

End Upsert.

Section LastWins.
Import CollegeAgentSchema Readings.

Implicit Types (current result update l : list College) (c d e : College).

Lemma upsert_first_at l c : exists i : nat, first_at (upsert l c) c i.
Proof.
  induction l as [|e l IH]; simpl.
  - exists 0%nat. split; [reflexivity|]. intros j e Hj. lia.
  - destruct (decide (name e = name c)) as [Heq|Hne].
    + exists 0%nat. split; [reflexivity|]. intros j e' Hj. lia.
    + destruct IH as (i & Hi & Hfirst). exists (S i). split; [exact Hi|].
      intros [|j] e' Hj Hl; simpl in Hl.
      * injection Hl as <-. exact Hne.
      * apply (Hfirst j); [lia | exact Hl].
Qed.

Lemma upsert_keeps_first_at l c d (i : nat) :
  name d <> name c -> first_at l c i -> first_at (upsert l d) c i.
Proof.
  intros Hdc. revert i. induction l as [|e l IH]; intros i [Hi Hfirst].
  - rewrite lookup_nil in Hi. discriminate.
  - simpl. destruct (decide (name e = name d)) as [Heq|Hne].
    + destruct i as [|i]; simpl in Hi.
      * injection Hi as ->. congruence.
      * split; [exact Hi|]. intros [|j] e' Hj Hl; simpl in Hl.
        -- injection Hl as <-. exact Hdc.
        -- apply (Hfirst (S j)); [lia | exact Hl].
    + destruct i as [|i]; simpl in Hi.
      * split; [exact Hi|]. intros j e' Hj. lia.
      * destruct (IH i) as [Hi' Hfirst'].
        { split; [exact Hi|]. intros j e' Hj Hl.
          apply (Hfirst (S j)); [lia | exact Hl]. }
        split; [exact Hi'|]. intros [|j] e' Hj Hl; simpl in Hl.
        -- injection Hl as <-. apply (Hfirst 0%nat); [lia | reflexivity].
        -- apply (Hfirst' j); [lia | exact Hl].
Qed.

(** X3: the last college of the update with a given name wins: it is in
    the result, and it is the first college of the result with that
    name. *)
Theorem colleges_reducer_last_wins current (before after : list College) c :
  name c ∉ name <$> after ->
  exists i : nat,
    first_at (colleges_reducer current (Some (before ++ c :: after))) c i.
Proof.
  intros Hafter. rewrite colleges_reducer_upsert, foldl_app. simpl.
  destruct (upsert_first_at (foldl upsert current before) c) as [i Hi].
  exists i. revert Hi. generalize (upsert (foldl upsert current before) c).
  induction after as [|d after IH]; intros l Hi; simpl; [exact Hi|].
  apply IH.
  - intros Hin. apply Hafter. right. exact Hin.
  - apply upsert_keeps_first_at; [|exact Hi].
    intros Heq. apply Hafter. rewrite <- Heq. left.
Qed.

End LastWins.

Section Idempotence.
Import CollegeAgentSchema Readings.

Implicit Types (update l : list College) (c e : College).

Lemma settled_name update e : name (settled update e) = name e.
Proof.
  unfold settled, last_named.
  destruct (last (filter (named (name e)) update)) as [x|] eqn:Hlast;
    simpl; [|reflexivity].
  apply last_Some in Hlast as [l' Hl'].
  assert (x ∈ filter (named (name e)) update) as Hin.
  { rewrite Hl'. apply elem_of_app. right. left. }
  apply list_elem_of_filter in Hin as [Hx _]. exact Hx.
Qed.

Lemma settled_cons_same update c e :
  name c = name e -> settled (c :: update) e = settled update c.
Proof.
  intros Heq. unfold settled, last_named.
  rewrite filter_cons_True by exact Heq. rewrite Heq.
  destruct (filter (named (name e)) update) as [|x l]; [reflexivity|].
  rewrite last_cons_cons.
  destruct (proj2 (last_is_Some (x :: l))) as [y Hy]; [done|].
  rewrite Hy. reflexivity.
Qed.

Lemma settled_cons_other update c e :
  name c <> name e -> settled (c :: update) e = settled update e.
Proof.
  intros Hne. unfold settled, last_named.
  rewrite filter_cons_False by exact Hne. reflexivity.
Qed.

(** The head of the list after the whole update, and what is left of the
    update for the tail. *)
Lemma foldl_upsert_cons update e l :
  foldl upsert (e :: l) update =
  settled update e
    :: foldl upsert l (filter (fun c => ~ named (name e) c) update).
Proof.
  revert e l. induction update as [|c update IH]; intros e l; simpl.
  - reflexivity.
  - destruct (decide (name e = name c)) as [Heq|Hne].
    + rewrite IH, (settled_cons_same _ _ _ (eq_sym Heq)).
      rewrite filter_cons_False by (intros Hn; apply Hn; symmetry; exact Heq).
      rewrite Heq. reflexivity.
    + rewrite IH, settled_cons_other by (intros H; apply Hne; symmetry; exact H).
      rewrite filter_cons_True by (intros H; apply Hne; symmetry; exact H).
      reflexivity.
Qed.

Lemma settled_settled update e :
  settled update (settled update e) = settled update e.
Proof.
  unfold settled at 1. rewrite settled_name. unfold settled.
  destruct (last_named (name e) update); reflexivity.
Qed.

Lemma foldl_upsert_nil_idempotent (n : nat) update :
  (length update <= n)%nat ->
  foldl upsert (foldl upsert [] update) update = foldl upsert [] update.
Proof.
  revert update. induction n as [|n IH]; intros update Hlen.
  - destruct update; [reflexivity | simpl in Hlen; lia].
  - destruct update as [|c update]; [reflexivity|].
    change (foldl upsert [] (c :: update)) with (foldl upsert [c] update).
    rewrite (foldl_upsert_cons update c []).
    rewrite (foldl_upsert_cons (c :: update)).
    rewrite settled_name, settled_cons_same by
      (symmetry; apply settled_name).
    rewrite filter_cons_False by (intros Hn; apply Hn; reflexivity).
    f_equal. apply IH.
    pose proof (length_filter (fun c0 => ~ named (name c) c0) update).
    simpl in Hlen. lia.
Qed.

Lemma foldl_upsert_idempotent l update :
  foldl upsert (foldl upsert l update) update = foldl upsert l update.
Proof.
  revert update. induction l as [|e l IH]; intros update.
  - apply (foldl_upsert_nil_idempotent (length update)). lia.
  - rewrite (foldl_upsert_cons update e l).
    rewrite (foldl_upsert_cons update (settled update e)).
    rewrite settled_settled, settled_name. f_equal. apply IH.
Qed.

(** X5: the reducer is idempotent: merging an update a second time changes
    nothing, whatever the current list and the update (repeated names
    included). *)
Theorem colleges_reducer_idempotent (current update : list College) :
  colleges_reducer (colleges_reducer current (Some update)) (Some update)
  = colleges_reducer current (Some update).
Proof. rewrite !colleges_reducer_upsert. apply foldl_upsert_idempotent. Qed.

End Idempotence.

(** ** Merging updates into the state of the college finder *)

Section MergeUpdate.
Import CollegeAgentSchema Readings.

(** X8: two updates merged in one order or the other give the same
    elements under the keys merged by append, in an order that may differ;
    under [colleges] they give the same names. *)
Theorem merge_update_order (s : CollegeFinderState)
    (u1 u2 : CollegeFinderUpdate) :
  search_results (merge_update (merge_update s u1) u2)
    ≡ₚ search_results (merge_update (merge_update s u2) u1) /\
  recommendations (merge_update (merge_update s u1) u2)
    ≡ₚ recommendations (merge_update (merge_update s u2) u1) /\
  messages (merge_update (merge_update s u1) u2)
    ≡ₚ messages (merge_update (merge_update s u2) u1) /\
  status_updates (merge_update (merge_update s u1) u2)
    ≡ₚ status_updates (merge_update (merge_update s u2) u1) /\
  forall n : string,
    n ∈ name <$> colleges (merge_update (merge_update s u1) u2) <->
    n ∈ name <$> colleges (merge_update (merge_update s u2) u1).
Proof.
  assert (forall (A : Type) (l : list A) (a b : option (list A)),
             annotated operator_add (annotated operator_add l a) b
             ≡ₚ annotated operator_add (annotated operator_add l b) a) as Happ.
  { intros A l [a|] [b|]; simpl; unfold operator_add; try reflexivity.
    rewrite <- !app_assoc. apply Permutation_app_head, Permutation_app_comm. }
  repeat split; try apply Happ.
  - simpl. destruct (u_colleges u1) as [[l1|]|], (u_colleges u2) as [[l2|]|];
      simpl; try tauto.
    rewrite !foldl_process_college_names. tauto.
  - simpl. destruct (u_colleges u1) as [[l1|]|], (u_colleges u2) as [[l2|]|];
      simpl; try tauto.
    rewrite !foldl_process_college_names. tauto.
Qed.

End MergeUpdate.

(** ** More on the nodes of the marketing graph *)

Section MoreMarketingNodes.
Import Py Py.Notations SearchWeb MarketingSchema MarketingAgent Readings.
Context {W : Type} `{!Outside W event}.

Implicit Types (llm : Llm) (search_result : SearchResult)
  (pending : list SearchResult) (results : list Competitor)
  (w : world W event) (state : MarketingPlanState).

Lemma take_length_take {A : Type} (l : list A) (k : nat) :
  take k l = take (length (take k l)) l.
Proof.
  rewrite length_take. destruct (Nat.le_gt_cases k (length l)) as [Hle|Hgt].
  - rewrite Nat.min_l by exact Hle. reflexivity.
  - rewrite Nat.min_r by lia. rewrite !take_ge by lia. reflexivity.
Qed.

(** X9: the number of personas [create_personas] writes.  When the model
    is fetched and answers with [n] personas, the node writes the first
    [min(max_personas, n)] of them when [max_personas] is not negative (all
    of them when it is [n] or more, none when it is [0]), and the first
    [max(n + max_personas, 0)] when it is negative. *)
Theorem create_personas_count state w llm (o o' : W) (response : PersonaList) :
  answer Llm get_llm (outside w) = (Return llm, o) ->
  answer PersonaList
    (invoke (with_structured_output llm cls_PersonaList)
       (prompt_create_personas (max_personas state) (appName state)
          (appDescription state) (keyfeatures state)
          (value_proposition state))) o
    = (Return response, o') ->
  exists (written : list Persona) (w' : world W event),
    create_personas state w = (Return [item_personas written], w') /\
    written =
      take (length written) (PersonaList_personas response) /\
    (0 <= max_personas state ->
     Z.of_nat (length written) =
       Z.min (max_personas state)
             (Z.of_nat (length (PersonaList_personas response)))) /\
    (max_personas state < 0 ->
     Z.of_nat (length written) =
       Z.max 0 (Z.of_nat (length (PersonaList_personas response))
                + max_personas state)) /\
    (Z.of_nat (length (PersonaList_personas response)) <= max_personas state ->
     written = PersonaList_personas response) /\
    (max_personas state = 0 -> written = []).
Proof.
  intros Hllm Hinv.
  exists (slice_to (PersonaList_personas response) (int (max_personas state))).
  eexists. split.
  { unfold create_personas, bind, perform, ret. rewrite Hllm. simpl.
    rewrite Hinv. reflexivity. }
  unfold int, slice_to.
  destruct (Z.ltb_spec (max_personas state) 0) as [Hneg|Hpos].
  - split; [apply take_length_take|]. rewrite length_take.
    split; [lia|]. split; [lia|]. split; lia.
  - split; [apply take_length_take|]. rewrite length_take.
    split; [lia|]. split; [lia|]. split.
    + intros Hall. apply take_ge. lia.
    + intros ->. reflexivity.
Qed.

(** The guarded body fetches the page of its link, once, whatever
    follows. *)
Lemma guarded_link_scraped llm search_result results w :
  scraped
    (history
       (try_except_Exception (extract_from_link llm search_result results)
          (report_link_error search_result results) w).2)
  = scraped (history w) ++ [link search_result].
Proof.
  unfold try_except_Exception, extract_from_link, report_link_error, bind,
    perform, print, ret.
  destruct (answer Document (scrape_web (link search_result)) (outside w))
    as [[doc|e] o]; simpl.
  - destruct (answer CompetitorList
                (invoke (with_structured_output llm cls_CompetitorList)
                   (prompt_extract_competitors (page_content doc))) o)
      as [[competitors|e] o']; simpl.
    + unfold scraped. rewrite !omap_app. simpl. rewrite app_nil_r. reflexivity.
    + destruct (derives_Exception e); simpl;
        unfold scraped; rewrite !omap_app; simpl; rewrite app_nil_r;
        reflexivity.
  - destruct (derives_Exception e); simpl;
      unfold scraped; rewrite !omap_app; reflexivity.
Qed.

Lemma for_search_results_scraped llm pending results w :
  (forall (R : Type) (ev : event R) (o o' : W) (e : exn),
      answer R ev o = (Raise e, o') -> derives_Exception e = true) ->
  scraped (history (for_search_results llm pending results w).2)
  = scraped (history w) ++ (link <$> pending).
Proof.
  intros Hexc. revert results w.
  induction pending as [|sr pending IH]; intros results w; simpl.
  - symmetry. apply app_nil_r.
  - unfold bind at 1.
    pose proof (guarded_link_scraped llm sr results w) as Hone.
    pose proof (extract_from_link_cases llm sr results w) as Hcases.
    destruct (extract_from_link llm sr results w) as [[r|e] w0] eqn:Hrun.
    + rewrite (guarded_link_returned _ _ _ _ _ _ Hrun) in Hone |- *.
      cbn [fst snd] in Hone |- *.
      rewrite IH, Hone, <- app_assoc. reflexivity.
    + destruct Hcases as (R & ev & o & o' & Hans).
      rewrite (guarded_link_caught _ _ _ _ _ _ Hrun (Hexc _ _ _ _ _ Hans))
        in Hone |- *.
      cbn [fst snd] in Hone |- *.
      rewrite IH, Hone, <- app_assoc. reflexivity.
Qed.

(** X10: [finalize_competitors] fetches the page of every search result,
    once each and in the order of the list, when the model is fetched and
    the outside raises only exceptions that derive from [Exception]: a
    link that fails does not keep the links after it from being tried. *)
Theorem finalize_competitors_visits_every_link state w llm (o : W) :
  (forall (R : Type) (ev : event R) (o o' : W) (e : exn),
      answer R ev o = (Raise e, o') -> derives_Exception e = true) ->
  answer Llm get_llm (outside w) = (Return llm, o) ->
  scraped (history (finalize_competitors state w).2)
  = scraped (history w) ++ (link <$> search_results state).
Proof.
  intros Hexc Hllm. unfold finalize_competitors, bind at 1.
  unfold perform at 1. rewrite Hllm.
  set (w1 := {| outside := o; stdout := stdout w;
                history := history w ++ [called get_llm] |}).
  assert (scraped (history w1) = scraped (history w)) as Hw1.
  { unfold w1, scraped. simpl. rewrite omap_app. simpl. apply app_nil_r. }
  pose proof (for_search_results_scraped llm (search_results state) [] w1 Hexc)
    as Hloop.
  rewrite Hw1 in Hloop. clearbody w1. clear Hw1.
  unfold bind at 1.
  destruct (for_search_results llm (search_results state) [] w1)
    as [[results|e] w2]; cbn [fst snd] in Hloop |- *; [|exact Hloop].
  unfold bind, perform, ret.
  destruct (answer CompetitorList
              (invoke (with_structured_output llm cls_CompetitorList)
                 (prompt_select_competitors (appName state)
                    (appDescription state) results)) (outside w2))
    as [[r|e] o']; cbn [fst snd history];
    unfold scraped in *; rewrite omap_app, Hloop; simpl; apply app_nil_r.
Qed.

(** X11: what follows the loop is not guarded.  When the links have been
    gone through and the model refuses the choice among the competitors
    found, [finalize_competitors] raises what the model raised, be it an
    [Exception], and returns no competitor. *)
Theorem finalize_competitors_ranking_failure state w llm (o o' : W)
    (results : list Competitor) (w2 : world W event) (e : exn) :
  answer Llm get_llm (outside w) = (Return llm, o) ->
  for_search_results llm (search_results state) []
    {| outside := o; stdout := stdout w;
       history := history w ++ [called get_llm] |}
  = (Return results, w2) ->
  answer CompetitorList
    (invoke (with_structured_output llm cls_CompetitorList)
       (prompt_select_competitors (appName state) (appDescription state)
          results)) (outside w2)
  = (Raise e, o') ->
  (finalize_competitors state w).1 = Raise e /\
  stdout (finalize_competitors state w).2 = stdout w2.
Proof.
  intros Hllm Hloop Hinv.
  assert (finalize_competitors state w =
          (Raise e,
           {| outside := o'; stdout := stdout w2;
              history :=
                history w2 ++
                [called (invoke (with_structured_output llm cls_CompetitorList)
                           (prompt_select_competitors (appName state)
                              (appDescription state) results))] |})) as ->.
  { unfold finalize_competitors, bind at 1.
    unfold perform at 1. rewrite Hllm. unfold bind at 1. rewrite Hloop.
    unfold bind, perform, ret. rewrite Hinv. reflexivity. }
  split; reflexivity.
Qed.

End MoreMarketingNodes.

(** ** The nodes around the model *)

Section SiteAndHint.
Import Py Py.Notations SearchWeb MarketingSchema MarketingAgent.
Context {W : Type} `{!Outside W event}.

Implicit Types (w : world W event) (state : MarketingPlanState).

(** X16: without a hint, [None] or the empty string,
    [search_web_for_competitors_by_hint] returns the empty dict and does
    nothing else: no search, nothing printed.  With a hint it makes one
    call, the search for sites similar to the hint, and returns the
    results under [search_results] when the search returns, or raises what
    the search raised. *)
Theorem search_by_hint_cases state w :
  match competitor_hint state with
  | None | Some "" =>
      search_web_for_competitors_by_hint state w = (Return [], w)
  | Some hint =>
      history (search_web_for_competitors_by_hint state w).2 =
        history w ++
        [called (search_web_with_query ("Find website similar to " +:+ hint))]
      /\
      stdout (search_web_for_competitors_by_hint state w).2 = stdout w /\
      match answer (list SearchResult)
              (search_web_with_query ("Find website similar to " +:+ hint))
              (outside w) with
      | (Return results, _) =>
          (search_web_for_competitors_by_hint state w).1 =
            Return [item_search_results results]
      | (Raise e, _) =>
          (search_web_for_competitors_by_hint state w).1 = Raise e
      end
  end.
Proof.
  unfold search_web_for_competitors_by_hint.
  destruct (competitor_hint state) as [[|ch hint]|]; simpl;
    try reflexivity.
  unfold bind, perform, ret.
  destruct (answer (list SearchResult)
              (search_web_with_query
                 ("Find website similar to " +:+ String ch hint)) (outside w))
    as [[results|e] o]; simpl; auto.
Qed.


End SiteAndHint.

(** ** The trending flow *)

Section TrendingFlow.
Import Py Py.Notations RunBargptAgent.
Context {W : Type} `{!Outside W event}.

Implicit Types (w : world W event) (result : gmap string Any).

Lemma trending_flow_body_returns w result (w' : world W event) :
  trending_flow_body w = (Return result, w') ->
  exists (agent : ResearchAgent) (o o' : W),
    answer (gmap string Any) (ResearchAgent_run agent trending_request) o
    = (Return result, o').
Proof.
  unfold trending_flow_body, bind, perform, ret.
  destruct (answer unit (logger_info "Starting BarGPT trending post flow...")
              (outside w)) as [[[]|e] o0]; simpl; [|discriminate].
  destruct (answer ResearchAgent ResearchAgent_new o0) as [[agent|e] o1];
    simpl; [|discriminate].
  destruct (answer (gmap string Any)
              (ResearchAgent_run agent trending_request) o1)
    as [[r|e] o2] eqn:Hrun; simpl; [|discriminate].
  intros [= <- _]. eauto.
Qed.

(** X12: [run_trending_flow] returns only what the research agent gave:
    when it returns a value, its body returned that value, which is the
    answer of the run of the agent on the request of the module, and no
    error was logged. *)
Theorem run_trending_flow_result w result (w' : world W event) :
  run_trending_flow w = (Return result, w') ->
  trending_flow_body w = (Return result, w') /\
  exists (agent : ResearchAgent) (o o' : W),
    answer (gmap string Any) (ResearchAgent_run agent trending_request) o
    = (Return result, o').
Proof.
  unfold run_trending_flow, try_except_Exception.
  destruct (trending_flow_body w) as [[r|e] w1] eqn:Hbody.
  - intros [= <- <-]. split; [reflexivity|].
    eapply trending_flow_body_returns. exact Hbody.
  - destruct (derives_Exception e); [|discriminate].
    unfold bind, perform, raise.
    destruct (answer unit
                (logger_error ("Error running trending flow: " +:+ exn_str e))
                (outside w1)) as [[[]|e'] o]; simpl; discriminate.
Qed.

(** X13: [run_trending_flow] does not swallow an error: when its body
    raises, it raises.  For an exception [e] that derives from [Exception]
    it logs the error, with the message of [e], and raises [e] again when
    the logging returns. *)
Theorem run_trending_flow_reraises w (e : exn) (w1 : world W event) :
  trending_flow_body w = (Raise e, w1) ->
  (exists e' : exn, (run_trending_flow w).1 = Raise e') /\
  (derives_Exception e = false -> run_trending_flow w = (Raise e, w1)) /\
  (derives_Exception e = true ->
   forall o : W,
     answer unit
       (logger_error ("Error running trending flow: " +:+ exn_str e))
       (outside w1)
     = (Return tt, o) ->
     run_trending_flow w =
       (Raise e,
        {| outside := o; stdout := stdout w1;
           history :=
             history w1 ++
             [called
                (logger_error
                   ("Error running trending flow: " +:+ exn_str e))] |})).
Proof.
  intros Hbody. unfold run_trending_flow, try_except_Exception.
  rewrite Hbody. unfold bind, perform, raise.
  destruct (derives_Exception e).
  - split; [|split; [discriminate|]].
    + destruct (answer unit
                  (logger_error
                     ("Error running trending flow: " +:+ exn_str e))
                  (outside w1)) as [[[]|e'] o]; simpl; eauto.
    + intros _ o Hlog. rewrite Hlog. reflexivity.
  - split; [eauto|]. split; [reflexivity | discriminate].
Qed.

End TrendingFlow.

(** ** Listing and fetching agents *)

Section RegistryRoundTrip.
Import Py MarketingSchema Agents.
Context {W : Type} `{!Outside W MarketingAgent.event}.

(** X14: the ids [get_all_agent_info] lists are the ids [get_agent]
    accepts: an id is the key of a listed [AgentInfo] exactly when
    [get_agent] returns a graph for it, and for any other id [get_agent]
    raises [KeyError] on that id. *)
Theorem listed_agents_can_be_fetched (registry : gmap string (@Agent W))
    (agent_id : string) :
  (agent_id ∈ key <$> get_all_agent_info registry <->
   exists g : @CompiledStateGraph W, get_agent registry agent_id = Return g) /\
  (agent_id ∉ key <$> get_all_agent_info registry ->
   get_agent registry agent_id = Raise (KeyError agent_id)).
Proof.
  rewrite get_all_agent_info_keys, get_agent_lookup.
  assert (agent_id ∈ (map_to_list registry).*1 <->
          is_Some (registry !! agent_id)) as Hdom.
  { rewrite <- elem_of_dom, dom_alt, elem_of_list_to_set. reflexivity. }
  rewrite Hdom. destruct (registry !! agent_id) as [agent|]; split.
  - split; [eauto | intros _; eauto].
  - intros Hnot. exfalso. apply Hnot. eauto.
  - split; [intros [x Hx]; discriminate | intros [g Hg]; discriminate].
  - reflexivity.
Qed.

End RegistryRoundTrip.

(** ** The query in the task descriptions *)

Section QueryInDescriptions.
Import VacationHouseAgent.

Lemma substring_at_start (q rest : string) :
  String.substring 0 (String.length q) (q +:+ rest) = q.
Proof.
  induction q as [|ch q IH]; simpl.
  - destruct rest; reflexivity.
  - rewrite IH. reflexivity.
Qed.

Lemma substring_after (a q rest : string) :
  String.substring (String.length a) (String.length q) (a +:+ q +:+ rest) = q.
Proof.
  induction a as [|ch a IH].
  - exact (substring_at_start q rest).
  - simpl. exact IH.
Qed.

Lemma mentions_middle (a q rest : string) :
  mentions q (a +:+ q +:+ rest) = true.
Proof.
  unfold mentions.
  destruct (String.index 0 q (a +:+ q +:+ rest)) as [m|] eqn:Hindex;
    [reflexivity|].
  exfalso. destruct q as [|ch q].
  - apply String.index_correct4 in Hindex. lia.
  - eapply (String.index_correct3 0 (String.length a)); [exact Hindex| | |].
    + discriminate.
    + lia.
    + apply substring_after.
Qed.

(** X15: the query of the user reaches the agents: whatever the query, it
    is found in the description of the city research task, of the vacation
    homes task and of the summary task, at the places the source puts
    it. *)
Theorem query_in_task_descriptions (self : VacationHouseAgent)
    (agent : Agent.t) (query : string) (task : Task.t)
    (tasks : list Task.t) :
  mentions query
    (Task.description (find_candidate_cities_task self agent query)) = true /\
  mentions query
    (Task.description (find_vacation_homes_task self agent query task)) = true /\
  mentions query
    (Task.description (summarize_task self agent query tasks)) = true /\
  exists t1 t2 t3 t4 t5 : Task.t,
    create_tasks self query = [t1; t2; t3; t4; t5] /\
    mentions query (Task.description t1) = true /\
    mentions query (Task.description t2) = true /\
    mentions query (Task.description t5) = true.
Proof.
  assert (forall agent0 : Agent.t,
             mentions query
               (Task.description
                  (find_candidate_cities_task self agent0 query)) = true) as H1.
  { intros agent0. apply mentions_middle. }
  assert (forall (agent0 : Agent.t) (task0 : Task.t),
             mentions query
               (Task.description
                  (find_vacation_homes_task self agent0 query task0)) = true)
    as H2.
  { intros agent0 task0. apply mentions_middle. }
  assert (forall (agent0 : Agent.t) (tasks0 : list Task.t),
             mentions query
               (Task.description (summarize_task self agent0 query tasks0))
             = true) as H3.
  { intros agent0 tasks0. apply mentions_middle. }
  split; [apply H1|]. split; [apply H2|]. split; [apply H3|].
  unfold create_tasks. do 5 eexists. split; [reflexivity|].
  split; [apply H1|]. split; [apply H2 | apply H3].
Qed.

End QueryInDescriptions.

(** ** More runs on the sample outsides *)

Lemma colleges_reducer_last_wins_witness :
  exists i : nat,
    Readings.first_at
      (CollegeAgentSchema.colleges_reducer [college "MIT" "MA"]
         (Some ([college "Reed" "OR"]
                ++ college "Reed" "Portland" :: [college "Rice" "TX"])))
      (college "Reed" "Portland") i.
Proof.
  apply (colleges_reducer_last_wins [college "MIT" "MA"]
           [college "Reed" "OR"] [college "Rice" "TX"]
           (college "Reed" "Portland")).
  simpl. intros Hin. apply list_elem_of_singleton in Hin. discriminate.
Defined.

Lemma colleges_reducer_fresh_names_witness :
  CollegeAgentSchema.colleges_reducer [college "MIT" "MA"]
    (Some [college "Reed" "OR"; college "Rice" "TX"])
  = [college "MIT" "MA"] ++ [college "Reed" "OR"; college "Rice" "TX"].
Proof.
  apply colleges_reducer_fresh_names.
  - apply (bool_decide_unpack _). vm_compute. exact I.
  - intros n Hn Hin. simpl in Hn, Hin.
    apply list_elem_of_singleton in Hin. subst n.
    apply elem_of_cons in Hn as [Hn|Hn]; [discriminate|].
    apply list_elem_of_singleton in Hn. discriminate.
Defined.

Lemma create_personas_count_witness :
  exists (written : list MarketingSchema.Persona)
         (w' : world unit MarketingAgent.event),
    MarketingAgent.create_personas (Outside0 := flaky_web)
      (sample_state 5 []) (fresh tt)
    = (Return [MarketingSchema.item_personas written], w') /\
    written = [persona "Ada"; persona "Bo"; persona "Cy"].
Proof.
  destruct (@create_personas_count unit flaky_web (sample_state 5 [])
              (fresh tt) sample_llm tt tt
              (canned MarketingAgent.cls_PersonaList
                 (MarketingAgent.prompt_create_personas 5 "App" "An app"
                    ["fast"] "saves time"))
              eq_refl eq_refl)
    as (written & w' & Hrun & _ & _ & _ & Hall & _).
  exists written, w'. split; [exact Hrun|]. apply Hall. simpl. lia.
Defined.

Lemma finalize_competitors_visits_every_link_witness :
  Readings.scraped
    (history
       (MarketingAgent.finalize_competitors (Outside0 := flaky_web)
          (sample_state 2
             [hit "a.example"; hit "down.example"; hit "b.example"])
          (fresh tt)).2)
  = ["a.example"; "down.example"; "b.example"].
Proof.
  exact (@finalize_competitors_visits_every_link unit flaky_web
           (sample_state 2
              [hit "a.example"; hit "down.example"; hit "b.example"])
           (fresh tt) sample_llm tt flaky_web_raises_Exception eq_refl).
Defined.

(** The two links are read and a competitor is found on each; the model
    then refuses to choose among them, and the node raises. *)
Lemma finalize_competitors_ranking_failure_witness :
  (MarketingAgent.finalize_competitors (Outside0 := ranking_fails_web)
     (sample_state 2 [hit "a.example"; hit "b.example"]) (fresh tt)).1
  = Raise RateLimitError /\
  stdout
    (MarketingAgent.finalize_competitors (Outside0 := ranking_fails_web)
       (sample_state 2 [hit "a.example"; hit "b.example"]) (fresh tt)).2
  = [].
Proof.
  edestruct (@finalize_competitors_ranking_failure unit ranking_fails_web
               (sample_state 2 [hit "a.example"; hit "b.example"]) (fresh tt)
               sample_llm tt tt
               [competitor "a.example"; competitor "b.example"]
               (MarketingAgent.for_search_results
                  (Outside0 := ranking_fails_web) sample_llm
                  [hit "a.example"; hit "b.example"] []
                  {| outside := tt; stdout := [];
                     history := [called MarketingAgent.get_llm] |}).2
               RateLimitError) as [Hraise Hout].
  - reflexivity.
  - vm_compute. reflexivity.
  - reflexivity.
  - split; [exact Hraise | rewrite Hout; reflexivity].
Defined.

Lemma run_trending_flow_result_witness :
  exists (agent : RunBargptAgent.ResearchAgent)
         (o o' : outcome (gmap string RunBargptAgent.Any)),
    @answer _ RunBargptAgent.event research_outside _
      (RunBargptAgent.ResearchAgent_run agent RunBargptAgent.trending_request) o
    = (Return sample_topics, o').
Proof.
  eapply proj2.
  eapply (@run_trending_flow_result _ research_outside
            (fresh (Return sample_topics)) sample_topics).
  reflexivity.
Defined.

Lemma run_trending_flow_reraises_witness :
  (RunBargptAgent.run_trending_flow (Outside0 := research_outside)
     (fresh (Raise RateLimitError))).1
  = Raise RateLimitError /\
  last
    (history
       (RunBargptAgent.run_trending_flow (Outside0 := research_outside)
          (fresh (Raise RateLimitError))).2)
  = Some (called (RunBargptAgent.logger_error
                    "Error running trending flow: rate limit reached")).
Proof.
  pose proof (@run_trending_flow_reraises _ research_outside
                (fresh (Raise RateLimitError)) RateLimitError
                (RunBargptAgent.trending_flow_body
                   (Outside0 := research_outside)
                   (fresh (Raise RateLimitError))).2 eq_refl)
    as (_ & _ & Hlogged).
  rewrite (Hlogged eq_refl (Raise RateLimitError) eq_refl).
  split; reflexivity.
Defined.
